(** * predictatrade-ml web front end: field resolution, classification
      and session aggregation

    A shallow embedding of [src/web/nakshatra_rationale.js] and
    [src/web/app.js].  JavaScript values are modelled by an inductive
    type, strings by [string] (a sequence of code units), objects that
    are iterated with [Object.entries] by association lists in entry
    order, the [stats] accumulator (an object used as a map) by a
    [gmap], and a render pass by explicit state passing over a record
    of the page elements it writes. *)

From Stdlib Require Import ZArith Ascii String DecimalString Permutation.
From stdpp Require Import gmap strings list fin_maps.

Local Open Scope Z_scope.

(** ** JavaScript strings and scalar values *)

Module JS.

(** [String.prototype.toLowerCase] and [toUpperCase] on one code unit.
    The model maps the letters A-Z and a-z; every other code unit is
    left as it is. *)
Definition lowerChar (c : ascii) : ascii :=
  let n := nat_of_ascii c in
  if ((65 <=? n) && (n <=? 90))%nat then ascii_of_nat (n + 32) else c.

Definition upperChar (c : ascii) : ascii :=
  let n := nat_of_ascii c in
  if ((97 <=? n) && (n <=? 122))%nat then ascii_of_nat (n - 32) else c.

Fixpoint toLowerCase (s : string) : string :=
  match s with
  | EmptyString => EmptyString
  | String c r => String (lowerChar c) (toLowerCase r)
  end.

Fixpoint toUpperCase (s : string) : string :=
  match s with
  | EmptyString => EmptyString
  | String c r => String (upperChar c) (toUpperCase r)
  end.

(** [s.startsWith(p)] *)
Fixpoint startsWith (s p : string) : bool :=
  match p, s with
  | EmptyString, _ => true
  | String _ _, EmptyString => false
  | String b p', String a s' => Ascii.eqb a b && startsWith s' p'
  end.

(** [s.includes(p)]: [p] occurs in [s] at some offset. *)
Fixpoint includes (s p : string) : bool :=
  startsWith s p
  || match s with
     | EmptyString => false
     | String _ s' => includes s' p
     end.

(** [s.slice(0, n)] for a non-negative [n]. *)
Fixpoint slice0 (n : nat) (s : string) : string :=
  match n, s with
  | O, _ => EmptyString
  | S _, EmptyString => EmptyString
  | S n', String c r => String c (slice0 n' r)
  end.

(** The values a field of a parsed JSON record can hold, and
    [undefined] for a field that is not there.  Numbers are modelled
    by the integers. *)
Inductive value : Type :=
  | VUndefined
  | VNull
  | VBool (b : bool)
  | VNum (n : Z)
  | VStr (s : string).

Definition value_eqb (a b : value) : bool :=
  match a, b with
  | VUndefined, VUndefined => true
  | VNull, VNull => true
  | VBool x, VBool y => Bool.eqb x y
  | VNum x, VNum y => Z.eqb x y
  | VStr x, VStr y => String.eqb x y
  | _, _ => false
  end.

(** [v !== undefined && v !== null && v !== ""] *)
Definition nonEmpty (v : value) : bool :=
  match v with
  | VUndefined | VNull => false
  | VStr s => negb (String.eqb s "")
  | VBool _ | VNum _ => true
  end.

(** ToBoolean *)
Definition truthy (v : value) : bool :=
  match v with
  | VUndefined | VNull => false
  | VBool b => b
  | VNum n => negb (n =? 0)
  | VStr s => negb (String.eqb s "")
  end.

(** [a || b] *)
Definition orElse (a b : value) : value := if truthy a then a else b.

(** [a ?? b] *)
Definition nullish (a b : value) : value :=
  match a with
  | VUndefined | VNull => b
  | _ => a
  end.

Definition Z_to_string (n : Z) : string :=
  NilZero.string_of_int (Z.to_int n).

(** [String(v)], also the conversion of [${v}] in a template. *)
Definition toStr (v : value) : string :=
  match v with
  | VUndefined => "undefined"
  | VNull => "null"
  | VBool true => "true"
  | VBool false => "false"
  | VNum n => Z_to_string n
  | VStr s => s
  end.

End JS.

Import JS.

(** ** Records *)

(** A record (one row of a session) is the list of its own entries in
    the order [Object.entries] yields them. *)
Definition row : Type := list (string * value).

(** [row[key]]: the value of the own property [key], [undefined] when
    the record has none.  Keys are field names of the payload; what an
    object inherits from its prototype is added by
    [PlainObject.prop]. *)
Fixpoint get (r : row) (key : string) : value :=
  match r with
  | [] => VUndefined
  | (k, v) :: rest => if String.eqb k key then v else get rest key
  end.

(** ** The report payload and the page's surroundings *)

(** The [Report] payload: [sessions] maps a session key to the ordered
    rows of that session; [None] stands for a [sessions] field that is
    missing (or otherwise falsy). *)
Record report : Type := Report {
  date : value;
  sessions : option (list (string * list row));
}.

(** What [res.json()] resolves to: an object, or [None] for the
    payload [null]. *)
Definition payload : Type := option report.

(** [data.sessions || {}], as [Object.entries] lists it. *)
Definition sessionEntries (data : report) : list (string * list row) :=
  default [] (sessions data).

(** A thrown exception.  [TypeError] records the expression the engine
    rejected; the wording of its message is the engine's. *)
Inductive exn : Type :=
  | Error (message : string)
  | SyntaxError (message : string)
  | TypeError (site : string).

(** The response of [fetch]: [json] is what [res.json()] resolves to,
    or the message of the [SyntaxError] it rejects with. *)
Record response : Type := Response {
  status : Z;
  text : string;
  json : string + payload;
}.

(** [res.ok] *)
Definition ok (res : response) : bool :=
  (200 <=? status res) && (status res <=? 299).

(** The browser: network, clock and built-ins the pages call. *)
Record browser : Type := Browser {
  fetch : string -> response;
  encodeURIComponent : string -> string;
  utcNow : string;
  clientNow : string;
  typeErrorMessage : string -> string;
}.

(** [err.message] *)
Definition message (b : browser) (e : exn) : string :=
  match e with
  | Error m => m
  | SyntaxError m => m
  | TypeError site => typeErrorMessage b site
  end.

(** The values of the form controls when the pass starts ([app.js]
    names the date and timeframe controls [reportDate] and
    [timeframeSelect]). *)
Record form : Type := Form {
  dateInput : string;
  sessionSelect : string;
  tfSelect : string;
  clientTzInput : string;
}.

(** A pill of the summary row. *)
Inductive pill (stats : Type) : Type :=
  | PillNoRows
  | PillSession (sess : string) (timeframe : string) (s : stats).
Arguments PillNoRows {stats}.
Arguments PillSession {stats} sess timeframe s.

(** Keys of an object in insertion order: each key at its first
    occurrence. *)
Fixpoint insertionOrder (seen keys : list string) : list string :=
  match keys with
  | [] => []
  | k :: rest =>
      if bool_decide (k ∈ seen) then insertionOrder seen rest
      else k :: insertionOrder (k :: seen) rest
  end.

(** A loop whose body can throw. *)
Fixpoint foldM {A B : Type} (f : B -> A -> exn + B) (l : list A) (b : B)
    : exn + B :=
  match l with
  | [] => inr b
  | a :: rest =>
      match f b a with
      | inl e => inl e
      | inr b' => foldM f rest b'
      end
  end.

(** ** A pass over the page: state and exceptions *)

Module Pass.

Definition M (S A : Type) : Type := S -> (exn + A) * S.

Definition ret {S A} (a : A) : M S A := fun s => (inr a, s).

Definition bind {S A B} (m : M S A) (k : A -> M S B) : M S B :=
  fun s =>
    match m s with
    | (inl e, s') => (inl e, s')
    | (inr a, s') => k a s'
    end.

Definition throw {S A} (e : exn) : M S A := fun s => (inl e, s).

Definition modify {S} (f : S -> S) : M S unit := fun s => (inr tt, f s).

(** Lift the outcome of a call that does not touch the page. *)
Definition lift {S A} (r : exn + A) : M S A := fun s => (r, s).

(** [try { body } catch (err) { handler(err) }] *)
Definition tryCatch {S} (body : M S unit) (handler : exn -> S -> S) : S -> S :=
  fun s =>
    match body s with
    | (inl e, s') => handler e s'
    | (inr _, s') => s'
    end.

End Pass.

#[global] Instance pass_ret {S} : MRet (Pass.M S) := @Pass.ret S.
#[global] Instance pass_bind {S} : MBind (Pass.M S) :=
  fun A B k m => Pass.bind m k.

(** [el.classList.remove(...)] and [el.classList.add(c)] *)
Definition classRemove (cs : list string) (classList : list string) : list string :=
  filter (fun c => c ∉ cs) classList.

Definition classAdd (c : string) (classList : list string) : list string :=
  if bool_decide (c ∈ classList) then classList else classList ++ [c].

(** * nakshatra_rationale.js *)

Module Nakshatra.

(** ** pickField (lines 8-27) *)

(** The first loop: exact keys, in the order given. *)
Fixpoint pickExact (r : row) (exactKeys : list string) : option value :=
  match exactKeys with
  | [] => None
  | key :: rest =>
      if nonEmpty (get r key) then Some (get r key) else pickExact r rest
  end.

(** [lowerParts.some((p) => lk.includes(p))] *)
Definition someIncluded (lowerParts : list string) (lk : string) : bool :=
  existsb (fun p => includes lk p) lowerParts.

(** The second loop: the record's entries, in entry order. *)
Fixpoint pickFuzzy (lowerParts : list string) (entries : row) : option value :=
  match entries with
  | [] => None
  | (k, v) :: rest =>
      if negb (nonEmpty v) then pickFuzzy lowerParts rest
      else
        let lk := toLowerCase k in
        if someIncluded lowerParts lk then Some v
        else pickFuzzy lowerParts rest
  end.

Definition pickField (r : row) (exactKeys fuzzyParts : list string)
    (fallback : value) : value :=
  match pickExact r exactKeys with
  | Some v => v
  | None =>
      let lowerParts := map toLowerCase fuzzyParts in
      match pickFuzzy lowerParts r with
      | Some v => v
      | None => fallback
      end
  end.

(** A call that leaves [fallback] to its default, the empty string. *)
Definition pickField3 (r : row) (exactKeys fuzzyParts : list string) : value :=
  pickField r exactKeys fuzzyParts (VStr "").

(** ** buildNakshatraRows (lines 123-241) *)

(** [String(x || "").toLowerCase()] *)
Definition lowered (x : value) : string :=
  toLowerCase (toStr (orElse x (VStr ""))).

(** Lines 203-206: the class of the bias cell. *)
Definition biasClass (biasLower : string) : string :=
  let biasClass := "" in
  let biasClass := if includes biasLower "bull" then "bias-bull" else biasClass in
  let biasClass := if includes biasLower "bear" then "bias-bear" else biasClass in
  if includes biasLower "strong" then biasClass +:+ " bias-strong" else biasClass.

(** Lines 209-214: the class of the quality cell. *)
Definition qualClass (qualityLower : string) : string :=
  if includes qualityLower "soft" || includes qualityLower "mridu" then "qual-soft"
  else if includes qualityLower "sharp" || includes qualityLower "tikshna" then "qual-sharp"
  else "".

(** [${x || "–"}] *)
Definition orDash (x : value) : string := toStr (orElse x (VStr "–")).

(** One [<tr>] of the table.  The score cell keeps the resolved raw
    value: its parsing and two-decimal formatting are floating point
    and are not part of the model. *)
Record tr : Type := Tr {
  tdUtc : string;
  tdClient : string;
  tdSession : string;
  tdTimeframe : string;
  tdNakshatra : string;
  tdPada : string;
  tdRuler : string;
  tdQualityClass : string;
  tdQuality : string;
  tdBiasClass : string;
  tdBias : string;
  tdScoreRaw : value;
  tdPlanet : string;
  tdRationale : string;
}.

Definition renderRow (sessKey timeframe : string) (r : row) : tr :=
  let nakName := pickField3 r ["nakshatra_name"; "nakshatra"] ["nakshatra"; "nak"; "star"] in
  let pada := pickField3 r ["nakshatra_pada"] ["pada"] in
  let ruler := pickField3 r ["nakshatra_ruler"; "ruler"] ["ruler"; "lord"] in
  let quality := pickField3 r ["nakshatra_quality"] ["quality"; "guna"; "nature"] in
  let rationale :=
    pickField3 r ["nakshatra_rationale"]
      ["micro"; "rationale"; "comment"; "note"; "explanation"] in
  let biasRaw := pickField3 r ["nakshatra_bias"] ["bias"; "direction"] in
  let scoreRaw :=
    pickField r ["nakshatra_score"; "nakshatra_bullish_score"] ["score"] (VNum 0) in
  let keyPlanet := pickField3 r ["key_planet"; "key_planetary_trigger"] ["planet"] in
  let clientTime :=
    pickField3 r ["time_client"] ["client_time"; "local_time"; "time_client"] in
  let utcTime := pickField3 r ["time_utc"] ["utc_time"] in
  let biasLower := lowered biasRaw in
  let qualityLower := lowered quality in
  {| tdUtc := orDash utcTime;
     tdClient := orDash clientTime;
     tdSession := toUpperCase sessKey;
     tdTimeframe := toStr (orElse (get r "timeframe") (VStr timeframe));
     tdNakshatra := orDash nakName;
     tdPada := orDash pada;
     tdRuler := orDash ruler;
     tdQualityClass := qualClass qualityLower;
     tdQuality := orDash quality;
     tdBiasClass := biasClass biasLower;
     tdBias := orDash biasRaw;
     tdScoreRaw := scoreRaw;
     tdPlanet := orDash keyPlanet;
     tdRationale := orDash rationale |}.

(** The children of [#nakBody] after the two nested loops.  Session
    values are arrays of records in this model, so no step of the
    loops throws and the rows are given at once. *)
Definition buildNakshatraRows (data : report) (timeframe : string) : list tr :=
  flat_map (fun '(sessKey, rows) => map (renderRow sessKey timeframe) rows)
    (sessionEntries data).

(** ** buildSummary (lines 245-298) *)

Record stats : Type := Stats {
  bull : Z;
  bear : Z;
  neutral : Z;
  strong : Z;
  total : Z;
}.

Definition zero : stats :=
  {| bull := 0; bear := 0; neutral := 0; strong := 0; total := 0 |}.

Definition incTotal (s : stats) : stats :=
  {| bull := bull s; bear := bear s; neutral := neutral s;
     strong := strong s; total := total s + 1 |}.
Definition incBull (s : stats) : stats :=
  {| bull := bull s + 1; bear := bear s; neutral := neutral s;
     strong := strong s; total := total s |}.
Definition incBear (s : stats) : stats :=
  {| bull := bull s; bear := bear s + 1; neutral := neutral s;
     strong := strong s; total := total s |}.
Definition incNeutral (s : stats) : stats :=
  {| bull := bull s; bear := bear s; neutral := neutral s + 1;
     strong := strong s; total := total s |}.
Definition incStrong (s : stats) : stats :=
  {| bull := bull s; bear := bear s; neutral := neutral s;
     strong := strong s + 1; total := total s |}.

(** Lines 262-276, on the lower-cased bias text. *)
Definition countBias (s : stats) (bias : string) : stats :=
  let s := incTotal s in
  let s :=
    if String.eqb bias "" then incNeutral s
    else if includes bias "bull" then incBull s
    else if includes bias "bear" then incBear s
    else incNeutral s in
  if includes bias "strong" then incStrong s else s.

(** Lines 256-261: the bias text of a row. *)
Definition biasOf (r : row) : string :=
  lowered (pickField3 r ["nakshatra_bias"] ["bias"; "direction"]).

(** The body of the inner loop: [stats[sessKey]] is updated in place. *)
Definition countRow (sessKey : string) (st : gmap string stats) (r : row)
    : gmap string stats :=
  alter (fun s => countBias s (biasOf r)) sessKey st.

(** The body of the outer loop, on the entries [stats] owns;
    [PlainObject.countSession] follows [stats[sessKey]] through the
    prototype as well. *)
Definition countSession (st : gmap string stats) (entry : string * list row)
    : gmap string stats :=
  let '(sessKey, rows) := entry in
  let st :=
    match st !! sessKey with
    | None => <[sessKey := zero]> st
    | Some _ => st
    end in
  fold_left (countRow sessKey) rows st.

(** [stats] when the loops are done. *)
Definition collectStats (data : report) : gmap string stats :=
  fold_left countSession (sessionEntries data) ∅.

Definition buildSummary (data : report) (timeframe : string) : list (pill stats) :=
  let st := collectStats data in
  let sessions := insertionOrder [] (map fst (sessionEntries data)) in
  match sessions with
  | [] => [PillNoRows]
  | _ =>
      omap (fun sess => PillSession (toUpperCase sess) timeframe <$> st !! sess)
        sessions
  end.

(** ** loadNakshatra (lines 49-119) *)

(** What the pass writes: the status element, the table body, the
    summary row and the download link; [requests] lists the URLs it
    has fetched, latest last. *)
Record page : Type := Page {
  statusClass : list string;
  statusGlyph : string;
  statusLabel : string;
  nakBody : list tr;
  summaryRow : list (pill stats);
  downloadCsv : string;
  requests : list string;
}.

Definition setStatus (cls : list string) (glyph label : string) (p : page) : page :=
  {| statusClass := cls; statusGlyph := glyph; statusLabel := label;
     nakBody := nakBody p; summaryRow := summaryRow p;
     downloadCsv := downloadCsv p; requests := requests p |}.

Definition setNakBody (rows : list tr) (p : page) : page :=
  {| statusClass := statusClass p; statusGlyph := statusGlyph p;
     statusLabel := statusLabel p; nakBody := rows;
     summaryRow := summaryRow p; downloadCsv := downloadCsv p;
     requests := requests p |}.

Definition setSummaryRow (pills : list (pill stats)) (p : page) : page :=
  {| statusClass := statusClass p; statusGlyph := statusGlyph p;
     statusLabel := statusLabel p; nakBody := nakBody p;
     summaryRow := pills; downloadCsv := downloadCsv p;
     requests := requests p |}.

Definition setDownloadCsv (href : string) (p : page) : page :=
  {| statusClass := statusClass p; statusGlyph := statusGlyph p;
     statusLabel := statusLabel p; nakBody := nakBody p;
     summaryRow := summaryRow p; downloadCsv := href;
     requests := requests p |}.

Definition logRequest (url : string) (p : page) : page :=
  {| statusClass := statusClass p; statusGlyph := statusGlyph p;
     statusLabel := statusLabel p; nakBody := nakBody p;
     summaryRow := summaryRow p; downloadCsv := downloadCsv p;
     requests := requests p ++ [url] |}.

(** [await fetch(url)] *)
Definition doFetch (b : browser) (url : string) : Pass.M page response :=
  fun p => (inr (fetch b url), logRequest url p).

Definition query (b : browser) (f : form) : string :=
  "?session=" +:+ encodeURIComponent b (sessionSelect f) +:+
  "&client_tz=" +:+ encodeURIComponent b (clientTzInput f) +:+
  "&timeframe=" +:+ encodeURIComponent b (tfSelect f).

(** Lines 93-96.  Session values are arrays in this model, so
    [Array.isArray(rows)] holds for each of them. *)
Definition totalRows (data : report) : Z :=
  fold_left (fun acc rows => acc + Z.of_nat (length rows))
    (map snd (sessionEntries data)) 0.

(** Lines 61-66. *)
Definition resetUI (p : page) : page :=
  setSummaryRow []
    (setNakBody []
       (setStatus (classRemove ["ok"; "error"] (statusClass p))
          "⌛" "Loading nakshatra rationale…" p)).

(** Lines 69-112: the body of the [try]. *)
Definition tryBody (b : browser) (f : form) : Pass.M page unit :=
  let dateStr := dateInput f in
  let tf := tfSelect f in
  (if String.eqb dateStr "" then Pass.throw (Error "Please select a valid date.")
   else mret tt) ;;
  let url := "/api/reports/" +:+ dateStr +:+ query b f in
  res ← doFetch b url;
  (if negb (ok res) then
     Pass.throw
       (Error ("HTTP " +:+ Z_to_string (status res) +:+ ": " +:+ slice0 200 (text res)))
   else mret tt) ;;
  data ← Pass.lift
           (match json res with
            | inl m => inl (SyntaxError m)
            | inr d => inr d
            end);
  match data with
  | Some ({| sessions := Some _ |} as data) =>
      Pass.modify (setNakBody (buildNakshatraRows data tf)) ;;
      Pass.modify (setSummaryRow (buildSummary data tf)) ;;
      let totalRows := totalRows data in
      Pass.modify (fun p =>
        setStatus (classAdd "ok" (statusClass p)) "✅"
          ("[OK] " +:+ toStr (date data) +:+ " • TF=" +:+ tf +:+ " • " +:+
           "UTC " +:+ utcNow b +:+ " • CLIENT " +:+ clientNow b +:+
           " • ROWS " +:+ Z_to_string totalRows) p) ;;
      Pass.modify (setDownloadCsv ("/api/reports/" +:+ dateStr +:+ "/csv" +:+ query b f))
  | _ => Pass.throw (Error "No session data returned from API.")
  end.

(** Lines 113-118: the [catch]. *)
Definition onError (b : browser) (err : exn) (p : page) : page :=
  setStatus (classAdd "error" (statusClass p)) "⚠"
    ("[ERR] " +:+ message b err) p.

Definition loadNakshatra (b : browser) (f : form) (p : page) : page :=
  Pass.tryCatch (tryBody b f) (onError b) (resetUI p).

End Nakshatra.

(** * app.js *)

Module App.

(** [(x).toLowerCase()] and [(x).toUpperCase()]: methods of strings
    only; on any other value the call is a [TypeError]. *)
Definition callToLowerCase (x : value) : exn + string :=
  match x with
  | VStr s => inr (toLowerCase s)
  | _ => inl (TypeError "toLowerCase")
  end.

Definition callToUpperCase (x : value) : exn + string :=
  match x with
  | VStr s => inr (toUpperCase s)
  | _ => inl (TypeError "toUpperCase")
  end.

(** [data.sessions || {}] on the payload as it was parsed: reading a
    property of [null] is a [TypeError]. *)
Definition payloadEntries (data : payload) : exn + list (string * list row) :=
  match data with
  | None => inl (TypeError "data.sessions")
  | Some d => inr (sessionEntries d)
  end.

(** ** buildTable (lines 135-210) *)

(** Lines 167-175: the class added to the row. *)
Definition biasRowClass (biasText : string) : list string :=
  if includes biasText "strong" && includes biasText "bull" then ["bias-strong-bull"]
  else if includes biasText "bull" then ["bias-bull"]
  else if includes biasText "strong" && includes biasText "bear" then ["bias-strong-bear"]
  else if includes biasText "bear" then ["bias-bear"]
  else [].

(** Lines 178-182: the class of the recommendation cell. *)
Definition recClass (recText : string) : string :=
  if includes recText "STRONG BUY" then "rec-strong-buy"
  else if includes recText "BUY" then "rec-buy"
  else if includes recText "STRONG SELL" then "rec-strong-sell"
  else if includes recText "SELL" then "rec-sell"
  else "".

(** Line 185. *)
Definition posClass (pos : value) : string :=
  if value_eqb pos (VStr "100%") || value_eqb pos (VNum 100) then "pos-100" else "".

(** One [<tr>] of the table.  The score cell keeps the raw value: its
    parsing and formatting are floating point and are not part of the
    model. *)
Record tr : Type := Tr {
  trClass : list string;
  tdClient : string;
  tdUtc : string;
  tdSession : string;
  tdTimeframe : string;
  tdHora : string;
  tdBias : string;
  tdRecClass : string;
  tdRec : string;
  tdScoreRaw : value;
  tdPosClass : string;
  tdPos : string;
}.

Definition renderRow (sessKey timeframe : string) (r : row) : exn + tr :=
  match
    callToLowerCase
      (orElse (orElse (get r "astro_bias") (get r "astrological_bias")) (VStr ""))
  with
  | inl e => inl e
  | inr biasText =>
      match callToUpperCase (orElse (get r "trade_recommendation") (VStr "")) with
      | inl e => inl e
      | inr recText =>
          let score := nullish (nullish (get r "gold_signal_score") (get r "base_score")) (VNum 0) in
          let pos := nullish (get r "position_size_percentage") (VStr "") in
          let clientTime := orElse (orElse (get r "time_client") (get r "time")) (VStr "") in
          let utcTime := orElse (get r "time_utc") (VStr "") in
          inr {| trClass := biasRowClass biasText;
                 tdClient := toStr clientTime;
                 tdUtc := toStr utcTime;
                 tdSession := toUpperCase sessKey;
                 tdTimeframe := toStr (orElse (get r "timeframe") (VStr timeframe));
                 tdHora := toStr (orElse (orElse (get r "hora_ruler") (get r "hora_lord")) (VStr ""));
                 tdBias := toStr (orElse (orElse (get r "astro_bias") (get r "astrological_bias")) (VStr ""));
                 tdRecClass := recClass recText;
                 tdRec := toStr (orElse (get r "trade_recommendation") (VStr ""));
                 tdScoreRaw := score;
                 tdPosClass := posClass pos;
                 tdPos := toStr pos |}
      end
  end.

(** The rows of the table body, in the order they are appended. *)
Definition tableSession (timeframe : string) (tbody : list tr)
    (entry : string * list row) : exn + list tr :=
  let '(sessKey, rows) := entry in
  foldM (fun tbody r =>
           match renderRow sessKey timeframe r with
           | inl e => inl e
           | inr t => inr (tbody ++ [t])
           end) rows tbody.

Definition buildTable (data : payload) (timeframe : string) : exn + list tr :=
  match payloadEntries data with
  | inl e => inl e
  | inr entries => foldM (tableSession timeframe) entries []
  end.

(** ** buildSummary (lines 213-249) *)

Record stats : Type := Stats {
  buy : Z;
  strongBuy : Z;
  sell : Z;
  strongSell : Z;
  total : Z;
}.

Definition zero : stats :=
  {| buy := 0; strongBuy := 0; sell := 0; strongSell := 0; total := 0 |}.

Definition incTotal (s : stats) : stats :=
  {| buy := buy s; strongBuy := strongBuy s; sell := sell s;
     strongSell := strongSell s; total := total s + 1 |}.
Definition incBuy (s : stats) : stats :=
  {| buy := buy s + 1; strongBuy := strongBuy s; sell := sell s;
     strongSell := strongSell s; total := total s |}.
Definition incStrongBuy (s : stats) : stats :=
  {| buy := buy s; strongBuy := strongBuy s + 1; sell := sell s;
     strongSell := strongSell s; total := total s |}.
Definition incSell (s : stats) : stats :=
  {| buy := buy s; strongBuy := strongBuy s; sell := sell s + 1;
     strongSell := strongSell s; total := total s |}.
Definition incStrongSell (s : stats) : stats :=
  {| buy := buy s; strongBuy := strongBuy s; sell := sell s;
     strongSell := strongSell s + 1; total := total s |}.

(** Lines 224-228, on the upper-cased recommendation text. *)
Definition countRec (s : stats) (rec : string) : stats :=
  let s := incTotal s in
  if includes rec "STRONG BUY" then incStrongBuy s
  else if includes rec "BUY" then incBuy s
  else if includes rec "STRONG SELL" then incStrongSell s
  else if includes rec "SELL" then incSell s
  else s.

(** Line 223. *)
Definition recOf (r : row) : exn + string :=
  callToUpperCase (orElse (get r "trade_recommendation") (VStr "")).

(** The body of the inner loop. *)
Definition countRow (sessKey : string) (st : gmap string stats) (r : row)
    : exn + gmap string stats :=
  match recOf r with
  | inl e => inl e
  | inr rec => inr (alter (fun s => countRec s rec) sessKey st)
  end.

(** The body of the outer loop. *)
Definition countSession (st : gmap string stats) (entry : string * list row)
    : exn + gmap string stats :=
  let '(sessKey, rows) := entry in
  let st :=
    match st !! sessKey with
    | None => <[sessKey := zero]> st
    | Some _ => st
    end in
  foldM (countRow sessKey) rows st.

(** [stats] when the loops are done. *)
Definition collectStats (data : payload) : exn + gmap string stats :=
  match payloadEntries data with
  | inl e => inl e
  | inr entries => foldM countSession entries ∅
  end.

(** The pills of the returned container. *)
Definition buildSummary (data : payload) (timeframe : string)
    : exn + list (pill stats) :=
  match payloadEntries data, collectStats data with
  | inr entries, inr st =>
      let sessions := insertionOrder [] (map fst entries) in
      inr (omap (fun sess => PillSession (toUpperCase sess) timeframe <$> st !! sess)
             sessions
           ++ match sessions with
              | [] => [PillNoRows]
              | _ => []
              end)
  | inl e, _ => inl e
  | _, inl e => inl e
  end.

(** ** loadReport (lines 77-133) *)

(** What the pass writes: the status element, the children of the
    table container and of the summary row, and the download link;
    [requests] lists the URLs it has fetched, latest last. *)
Record page : Type := Page {
  statusClass : list string;
  statusText : string;
  summaryRow : list (list (pill stats));
  tableContainer : list (list tr);
  downloadCsv : string;
  requests : list string;
}.

Definition setStatus (cls : list string) (txt : string) (p : page) : page :=
  {| statusClass := cls; statusText := txt; summaryRow := summaryRow p;
     tableContainer := tableContainer p; downloadCsv := downloadCsv p;
     requests := requests p |}.

Definition setSummaryRow (children : list (list (pill stats))) (p : page) : page :=
  {| statusClass := statusClass p; statusText := statusText p;
     summaryRow := children; tableContainer := tableContainer p;
     downloadCsv := downloadCsv p; requests := requests p |}.

Definition setTableContainer (children : list (list tr)) (p : page) : page :=
  {| statusClass := statusClass p; statusText := statusText p;
     summaryRow := summaryRow p; tableContainer := children;
     downloadCsv := downloadCsv p; requests := requests p |}.

Definition setDownloadCsv (href : string) (p : page) : page :=
  {| statusClass := statusClass p; statusText := statusText p;
     summaryRow := summaryRow p; tableContainer := tableContainer p;
     downloadCsv := href; requests := requests p |}.

Definition logRequest (url : string) (p : page) : page :=
  {| statusClass := statusClass p; statusText := statusText p;
     summaryRow := summaryRow p; tableContainer := tableContainer p;
     downloadCsv := downloadCsv p; requests := requests p ++ [url] |}.

(** [await fetch(url)] *)
Definition doFetch (b : browser) (url : string) : Pass.M page response :=
  fun p => (inr (fetch b url), logRequest url p).

Definition query (b : browser) (f : form) : string :=
  "?session=" +:+ encodeURIComponent b (sessionSelect f) +:+
  "&client_tz=" +:+ encodeURIComponent b (clientTzInput f) +:+
  "&timeframe=" +:+ encodeURIComponent b (tfSelect f).

(** Lines 108-111. *)
Definition totalRows (entries : list (string * list row)) : Z :=
  fold_left (fun sum arr => sum + Z.of_nat (length arr)) (map snd entries) 0.

(** Lines 86-89. *)
Definition resetUI (p : page) : page :=
  setTableContainer []
    (setSummaryRow []
       (setStatus (classRemove ["ok"; "error"] (statusClass p)) "Loading report…" p)).

(** Lines 92-127: the body of the [try]. *)
Definition tryBody (b : browser) (f : form) : Pass.M page unit :=
  let dateStr := dateInput f in
  let timeframe := tfSelect f in
  let url := "/api/reports/" +:+ dateStr +:+ query b f in
  res ← doFetch b url;
  (if negb (ok res) then Pass.throw (Error ("HTTP " +:+ Z_to_string (status res)))
   else mret tt) ;;
  data ← Pass.lift
           (match json res with
            | inl m => inl (SyntaxError m)
            | inr d => inr d
            end);
  table ← Pass.lift (buildTable data timeframe);
  Pass.modify (fun p => setTableContainer (tableContainer p ++ [table]) p) ;;
  summary ← Pass.lift (buildSummary data timeframe);
  Pass.modify (fun p => setSummaryRow (summaryRow p ++ [summary]) p) ;;
  entries ← Pass.lift (payloadEntries data);
  let totalRows := totalRows entries in
  Pass.modify (fun p =>
    setStatus (classAdd "ok" (statusClass p))
      ("[OK] " +:+ toStr (from_option date VUndefined data) +:+
       " | TF=" +:+ timeframe +:+ " | " +:+
       "UTC " +:+ utcNow b +:+ " | Client " +:+ clientNow b +:+
       " | Rows " +:+ Z_to_string totalRows) p) ;;
  Pass.modify (setDownloadCsv ("/api/reports/" +:+ dateStr +:+ "/csv" +:+ query b f)).

(** Lines 128-132: the [catch]. *)
Definition onError (b : browser) (err : exn) (p : page) : page :=
  setStatus (classAdd "error" (statusClass p)) ("[ERR] " +:+ message b err) p.

Definition loadReport (b : browser) (f : form) (p : page) : page :=
  Pass.tryCatch (tryBody b f) (onError b) (resetUI p).

End App.

(** * Plain objects and what they inherit *)

(** The records of a payload and the [stats] accumulator of
    [buildSummary] are plain objects: a property they do not own is
    looked up in [Object.prototype].  This module models that lookup,
    for [pickField] and for the loops of [buildSummary] in
    [nakshatra_rationale.js]. *)

Module PlainObject.

(** The property names of [Object.prototype]. *)
Definition objectPrototypeMembers : list string :=
  ["constructor"; "__defineGetter__"; "__defineSetter__"; "hasOwnProperty";
   "__lookupGetter__"; "__lookupSetter__"; "isPrototypeOf";
   "propertyIsEnumerable"; "toString"; "valueOf"; "__proto__"; "toLocaleString"].

Definition inherits (key : string) : bool :=
  bool_decide (key ∈ objectPrototypeMembers).

(** ** pickField (lines 8-27) *)

(** What [row[key]] evaluates to: a value of the record, or the
    built-in object that [Object.prototype] holds under that name. *)
Inductive pvalue : Type :=
  | Data (v : value)
  | BuiltIn (name : string).

Definition hasOwn (r : row) (key : string) : bool :=
  existsb (fun e => String.eqb (fst e) key) r.

(** [row[key]] *)
Definition prop (r : row) (key : string) : pvalue :=
  if hasOwn r key then Data (get r key)
  else if inherits key then BuiltIn key
  else Data VUndefined.

(** [x !== undefined && x !== null && x !== ""] *)
Definition nonEmpty (x : pvalue) : bool :=
  match x with
  | Data v => JS.nonEmpty v
  | BuiltIn _ => true
  end.

Fixpoint pickExact (r : row) (exactKeys : list string) : option pvalue :=
  match exactKeys with
  | [] => None
  | key :: rest =>
      if nonEmpty (prop r key) then Some (prop r key) else pickExact r rest
  end.

Definition pickField (r : row) (exactKeys fuzzyParts : list string)
    (fallback : value) : pvalue :=
  match pickExact r exactKeys with
  | Some x => x
  | None =>
      let lowerParts := map toLowerCase fuzzyParts in
      match Nakshatra.pickFuzzy lowerParts r with
      | Some v => Data v
      | None => Data fallback
      end
  end.

(** ** buildSummary (lines 245-298) *)

(** The value of a counter property: a number, [NaN], or [undefined]
    on an object that has no such property. *)
Inductive jsnum : Type :=
  | JUndefined
  | JNaN
  | JNum (n : Z).

(** [x++]: [undefined] converts to [NaN], and [NaN + 1] is [NaN]. *)
Definition plusplus (x : jsnum) : jsnum :=
  match x with
  | JNum n => JNum (n + 1)
  | JUndefined | JNaN => JNaN
  end.

(** The five properties the loop increments, on whatever object
    [stats[sessKey]] is. *)
Record props : Type := Props {
  bull : jsnum;
  bear : jsnum;
  neutral : jsnum;
  strong : jsnum;
  total : jsnum;
}.

(** [{ bull: 0, bear: 0, neutral: 0, strong: 0, total: 0 }] *)
Definition zero : props :=
  {| bull := JNum 0; bear := JNum 0; neutral := JNum 0;
     strong := JNum 0; total := JNum 0 |}.

(** An object that has none of the five properties. *)
Definition untouched : props :=
  {| bull := JUndefined; bear := JUndefined; neutral := JUndefined;
     strong := JUndefined; total := JUndefined |}.

Definition incTotal (o : props) : props :=
  {| bull := bull o; bear := bear o; neutral := neutral o;
     strong := strong o; total := plusplus (total o) |}.
Definition incBull (o : props) : props :=
  {| bull := plusplus (bull o); bear := bear o; neutral := neutral o;
     strong := strong o; total := total o |}.
Definition incBear (o : props) : props :=
  {| bull := bull o; bear := plusplus (bear o); neutral := neutral o;
     strong := strong o; total := total o |}.
Definition incNeutral (o : props) : props :=
  {| bull := bull o; bear := bear o; neutral := plusplus (neutral o);
     strong := strong o; total := total o |}.
Definition incStrong (o : props) : props :=
  {| bull := bull o; bear := bear o; neutral := neutral o;
     strong := plusplus (strong o); total := total o |}.

(** Lines 262-276, on the lower-cased bias text. *)
Definition countBias (o : props) (bias : string) : props :=
  let o := incTotal o in
  let o :=
    if String.eqb bias "" then incNeutral o
    else if includes bias "bull" then incBull o
    else if includes bias "bear" then incBear o
    else incNeutral o in
  if includes bias "strong" then incStrong o else o.

(** The own properties of [stats], in insertion order. *)
Definition object : Type := list (string * props).

Fixpoint own (o : object) (key : string) : option props :=
  match o with
  | [] => None
  | (k, x) :: rest => if String.eqb k key then Some x else own rest key
  end.

Fixpoint update (f : props -> props) (key : string) (o : object) : object :=
  match o with
  | [] => []
  | (k, x) :: rest =>
      if String.eqb k key then (k, f x) :: rest else (k, x) :: update f key rest
  end.

(** [stats], and the properties the loop has written on the members
    of [Object.prototype] ("__proto__" names [Object.prototype]
    itself); a member that is not listed has none of them. *)
Record heap : Type := Heap {
  stats : object;
  builtIns : gmap string props;
}.

(** The object [stats[sessKey]] evaluates to. *)
Inductive target : Type :=
  | OwnEntry
  | Inherited.

Definition resolve (h : heap) (sessKey : string) : option target :=
  match own (stats h) sessKey with
  | Some _ => Some OwnEntry
  | None => if inherits sessKey then Some Inherited else None
  end.

(** The body of the inner loop.  [stats[sessKey]] is never
    [undefined] here: the outer loop has created the entry. *)
Definition countRow (sessKey : string) (h : heap) (r : row) : heap :=
  let bias := Nakshatra.biasOf r in
  match resolve h sessKey with
  | Some OwnEntry =>
      {| stats := update (fun o => countBias o bias) sessKey (stats h);
         builtIns := builtIns h |}
  | Some Inherited =>
      {| stats := stats h;
         builtIns :=
           <[sessKey := countBias (default untouched (builtIns h !! sessKey)) bias]>
             (builtIns h) |}
  | None => h
  end.

(** The body of the outer loop: [if (!stats[sessKey])] creates the
    entry only when [stats[sessKey]] is [undefined]. *)
Definition countSession (h : heap) (entry : string * list row) : heap :=
  let '(sessKey, rows) := entry in
  let h :=
    match resolve h sessKey with
    | None => {| stats := stats h ++ [(sessKey, zero)]; builtIns := builtIns h |}
    | Some _ => h
    end in
  fold_left (countRow sessKey) rows h.

Definition collectStats (data : report) : heap :=
  fold_left countSession (sessionEntries data) {| stats := []; builtIns := ∅ |}.

Definition buildSummary (data : report) (timeframe : string) : list (pill props) :=
  let st := stats (collectStats data) in
  match map fst st with
  | [] => [PillNoRows]
  | _ => map (fun '(sess, s) => PillSession (toUpperCase sess) timeframe s) st
  end.

End PlainObject.

(** * Vocabulary of the statements *)

Import Nakshatra.

(** [p] occurs in [s]: the meaning of [s.includes(p)]. *)
Definition contains (s p : string) : Prop :=
  exists a b : string, s = a +:+ p +:+ b.

(** An entry the second loop of [pickField] returns: its value is
    neither absent nor empty and its lower-cased key contains some
    lower-cased fuzzy part. *)
Definition fuzzyHit (fuzzyParts : list string) (entry : string * value) : Prop :=
  nonEmpty (snd entry) = true /\
  exists p, In p fuzzyParts /\ contains (toLowerCase (fst entry)) (toLowerCase p).

(** The tags of a [ClassificationResult]. *)
Inductive direction : Type := Bull | Bear | Neutral.
Inductive quality : Type := Soft | Sharp | NoQuality.
Inductive recommendation : Type := StrongBuy | Buy | StrongSell | Sell | NoRec.

(** Direction of a lower-cased bias text: bull if it contains "bull",
    else bear if it contains "bear", else neutral. *)
Definition isDirection (t : string) (d : direction) : Prop :=
  match d with
  | Bull => contains t "bull"
  | Bear => ~ contains t "bull" /\ contains t "bear"
  | Neutral => ~ contains t "bull" /\ ~ contains t "bear"
  end.

(** Quality of a lower-cased quality text: soft first, then sharp. *)
Definition isQuality (t : string) (q : quality) : Prop :=
  let soft := contains t "soft" \/ contains t "mridu" in
  let sharp := contains t "sharp" \/ contains t "tikshna" in
  match q with
  | Soft => soft
  | Sharp => ~ soft /\ sharp
  | NoQuality => ~ soft /\ ~ sharp
  end.

(** The recommendation tests in the order they are tried. *)
Definition recTests : list (string * recommendation) :=
  [("STRONG BUY", StrongBuy); ("BUY", Buy); ("STRONG SELL", StrongSell); ("SELL", Sell)].

(** The first test of the list that matches decides, the tests after
    it are not consulted; no match gives none. *)
Fixpoint firstMatch (u : string) (tests : list (string * recommendation))
    (r : recommendation) : Prop :=
  match tests with
  | [] => r = NoRec
  | (needle, tag) :: rest =>
      (contains u needle /\ r = tag) \/ (~ contains u needle /\ firstMatch u rest r)
  end.

(** The counter a direction tag increments in the nakshatra summary. *)
Definition bumpDirection (d : direction) (s : stats) : stats :=
  match d with
  | Bull => incBull s
  | Bear => incBear s
  | Neutral => incNeutral s
  end.

(** The strength tag: the text contains "strong". *)
Definition bumpStrong (t : string) (s : stats) : stats :=
  if includes t "strong" then incStrong s else s.

(** The class of the bias cell that stands for a direction tag. *)
Definition directionClass (d : direction) : string :=
  match d with
  | Bull => "bias-bull"
  | Bear => "bias-bear"
  | Neutral => ""
  end.

Definition qualityClass (q : quality) : string :=
  match q with
  | Soft => "qual-soft"
  | Sharp => "qual-sharp"
  | NoQuality => ""
  end.

Definition recommendationClass (r : recommendation) : string :=
  match r with
  | StrongBuy => "rec-strong-buy"
  | Buy => "rec-buy"
  | StrongSell => "rec-strong-sell"
  | Sell => "rec-sell"
  | NoRec => ""
  end.

(** The counter a recommendation tag increments in the report summary. *)
Definition bumpRecommendation (r : recommendation) (s : App.stats) : App.stats :=
  match r with
  | StrongBuy => App.incStrongBuy s
  | Buy => App.incBuy s
  | StrongSell => App.incStrongSell s
  | Sell => App.incSell s
  | NoRec => s
  end.

(** What one step adds to each counter. *)
Definition delta (s s' : stats) : Z * Z * Z * Z * Z :=
  (bull s' - bull s, bear s' - bear s, neutral s' - neutral s,
   strong s' - strong s, total s' - total s).

(** The invariants of a session summary. *)
Definition directionInvariant (s : stats) : Prop :=
  bull s + bear s + neutral s = total s /\
  0 <= bull s /\ 0 <= bear s /\ 0 <= neutral s /\
  0 <= strong s <= total s.

Definition recommendationInvariant (s : App.stats) : Prop :=
  0 <= App.buy s /\ 0 <= App.strongBuy s /\ 0 <= App.sell s /\ 0 <= App.strongSell s /\
  App.buy s + App.strongBuy s + App.sell s + App.strongSell s <= App.total s.

(** ** The report request and what an error message shows *)

Definition nakshatraUrl (b : browser) (f : form) : string :=
  "/api/reports/" +:+ dateInput f +:+ Nakshatra.query b f.

Definition reportUrl (b : browser) (f : form) : string :=
  "/api/reports/" +:+ dateInput f +:+ App.query b f.

(** The text shows the status code of the response and the first 200
    characters of its body. *)
Definition surfacesStatusAndBody (res : response) (label : string) : Prop :=
  contains label (Z_to_string (status res)) /\
  contains label (slice0 200 (text res)).

(** The report view ends in the error state with nothing rendered. *)
Definition failedUnrendered (p : App.page) : Prop :=
  ("error" ∈ App.statusClass p) /\
  App.tableContainer p = [] /\ App.summaryRow p = [].

(** ** Sample records *)



Definition mixedBias : string := "Bullish bias, bearish risk".

Definition sampleReport : report :=
  {| date := VStr "2026-01-05";
     sessions :=
       Some [("asia",
              [[("nakshatra_bias", VStr "Strong Bullish");
                ("trade_recommendation", VStr "STRONG SELL")];
               [("bias", VStr "bearish trend"); ("trade_recommendation", VStr "buy")];
               [("nakshatra_score", VNum 0)]]);
             ("london", [])] |}.

Definition noSessions : report := {| date := VStr "2026-01-05"; sessions := None |}.

Definition serverError : response :=
  {| status := 500; text := "upstream timed out"; json := inl "Unexpected token u" |}.

Definition okWith (data : payload) : response :=
  {| status := 200; text := ""; json := inr data |}.

Definition browserWith (res : response) : browser :=
  {| fetch := fun _ => res;
     encodeURIComponent := fun s => s;
     utcNow := "2026-01-05T09:00:00.000Z";
     clientNow := "1/5/2026, 9:00:00 AM";
     typeErrorMessage := fun site => "cannot evaluate " +:+ site |}.

Definition sampleForm : form :=
  {| dateInput := "2026-01-05"; sessionSelect := "all";
     tfSelect := "1h"; clientTzInput := "Asia/Tokyo" |}.

Definition blankNakshatra : Nakshatra.page :=
  {| Nakshatra.statusClass := ["status"; "ok"]; Nakshatra.statusGlyph := "";
     Nakshatra.statusLabel := ""; Nakshatra.nakBody := [];
     Nakshatra.summaryRow := []; Nakshatra.downloadCsv := "#";
     Nakshatra.requests := [] |}.

Definition blankReport : App.page :=
  {| App.statusClass := ["status"; "ok"]; App.statusText := "";
     App.summaryRow := []; App.tableContainer := [];
     App.downloadCsv := "#"; App.requests := [] |}.


(** ** Further vocabulary *)

(** The class the report view gives a row of a direction, with and
    without the strength marker. *)
Definition directionRowClass (d : direction) (strongMark : bool) : list string :=
  match d, strongMark with
  | Bull, true => ["bias-strong-bull"]
  | Bull, false => ["bias-bull"]
  | Bear, true => ["bias-strong-bear"]
  | Bear, false => ["bias-bear"]
  | Neutral, _ => []
  end.

(** Two payloads with the same sessions, the rows of each session
    possibly in another order. *)
Definition sameSessionsUpToOrder (es es' : list (string * list row)) : Prop :=
  Forall2 (fun e e' => fst e = fst e' /\ Permutation (snd e) (snd e')) es es'.

(** The counters of a session after its rows, from zero. *)
Definition counted (rows : list row) : PlainObject.props :=
  fold_left (fun o r => PlainObject.countBias o (biasOf r)) rows PlainObject.zero.

(** The sessions that get an entry of their own in [stats]. *)
Definition ownSessions (es : list (string * list row)) : list (string * list row) :=
  filter (fun e => PlainObject.inherits (fst e) = false) es.

(** An exact key for which [row[key]] is a value of the record or
    [undefined]: the record owns it, or nothing is inherited under
    that name. *)
Definition plainKey (r : row) (key : string) : Prop :=
  PlainObject.hasOwn r key = true \/ PlainObject.inherits key = false.

Definition toStringSession : report :=
  {| date := VStr "2026-01-05";
     sessions := Some [("toString", [[("nakshatra_bias", VStr "Bullish")]])] |}.

Definition strongBuySignal : report :=
  {| date := VStr "2026-01-05";
     sessions :=
       Some [("asia", [[("trade_recommendation", VStr "STRONG BUY SIGNAL")]])] |}.

Definition numericRecommendation : report :=
  {| date := VStr "2026-01-05";
     sessions :=
       Some [("asia", [[("trade_recommendation", VStr "BUY")]]);
             ("london", [[("trade_recommendation", VStr "SELL")];
                         [("trade_recommendation", VNum 1)]])] |}.

(** * Properties *)

(** ** Strings *)

Lemma lowerChar_idem (c : ascii) : lowerChar (lowerChar c) = lowerChar c.
Proof. destruct c as [[] [] [] [] [] [] [] []]; reflexivity. Qed.

Lemma toLowerCase_idem (s : string) : toLowerCase (toLowerCase s) = toLowerCase s.
Proof.
  induction s as [|c s IH]; simpl; [reflexivity|].
  now rewrite lowerChar_idem, IH.
Qed.

Lemma upperChar_idem (c : ascii) : upperChar (upperChar c) = upperChar c.
Proof. destruct c as [[] [] [] [] [] [] [] []]; reflexivity. Qed.

Lemma toUpperCase_idem (s : string) : toUpperCase (toUpperCase s) = toUpperCase s.
Proof.
  induction s as [|c s IH]; simpl; [reflexivity|].
  now rewrite upperChar_idem, IH.
Qed.

Lemma append_nil (b : string) : "" +:+ b = b.
Proof. reflexivity. Qed.

Lemma append_cons (c : ascii) (a b : string) : String c a +:+ b = String c (a +:+ b).
Proof. reflexivity. Qed.

Lemma startsWith_spec (s p : string) :
  startsWith s p = true <-> exists b, s = p +:+ b.
Proof.
  revert s. induction p as [|c p IH]; intros s.
  - split; [intros _; now exists s | now destruct s].
  - destruct s as [|a s]; cbn [startsWith].
    + split; [discriminate | intros [b Hb]; rewrite append_cons in Hb; discriminate].
    + rewrite andb_true_iff, Ascii.eqb_eq, IH. split.
      * intros [-> [b ->]]. now exists b.
      * intros [b Hb]. rewrite append_cons in Hb. injection Hb as -> ->.
        split; [reflexivity | now exists b].
Qed.

Lemma includes_contains (s p : string) : includes s p = true <-> contains s p.
Proof.
  unfold contains. induction s as [|c s IH].
  - cbn [includes]. rewrite orb_false_r, startsWith_spec. split.
    + intros [b Hb]. now exists ""%string, b.
    + intros [[|a0 a] [b Hb]]; [now exists b |].
      rewrite append_cons in Hb. discriminate.
  - cbn [includes]. rewrite orb_true_iff, startsWith_spec, IH. split.
    + intros [[b Hb] | (a & b & Hab)].
      * now exists ""%string, b.
      * exists (String c a), b. now rewrite append_cons, Hab.
    + intros [[|a0 a] [b Hb]].
      * left. now exists b.
      * right. rewrite append_cons in Hb. injection Hb as _ Hs. now exists a, b.
Qed.

Lemma includes_not_contains (s p : string) : includes s p = false <-> ~ contains s p.
Proof.
  rewrite <- includes_contains. destruct (includes s p); split; congruence.
Qed.

Lemma string_app_assoc (a b c : string) : (a +:+ b) +:+ c = a +:+ b +:+ c.
Proof.
  induction a as [|x a IH]; [reflexivity|].
  rewrite !append_cons. now f_equal.
Qed.

Lemma append_empty_r (s : string) : s +:+ "" = s.
Proof.
  induction s as [|c s IH]; [reflexivity|].
  rewrite append_cons. now f_equal.
Qed.

Lemma contains_refl (s : string) : contains s s.
Proof. exists ""%string, ""%string. now rewrite append_nil, append_empty_r. Qed.

Lemma contains_trans (s p q : string) : contains s p -> contains p q -> contains s q.
Proof.
  intros (a & b & ->) (a' & b' & ->).
  exists (a +:+ a'), (b' +:+ b). now rewrite !string_app_assoc.
Qed.

Lemma nonEmpty_eqb_empty (s : string) : nonEmpty (VStr s) = negb (String.eqb s "").
Proof. reflexivity. Qed.

(** ** Records and [pickField] *)

Lemma get_nonEmpty_In (r : row) (key : string) :
  nonEmpty (get r key) = true -> In (key, get r key) r.
Proof.
  induction r as [|[k v] r IH]; simpl; [discriminate|].
  destruct (String.eqb_spec k key) as [->|Hne]; intros H.
  - now left.
  - right. now apply IH.
Qed.

Lemma pickExact_skip (r : row) (pre rest : list string) :
  Forall (fun k => nonEmpty (get r k) = false) pre ->
  pickExact r (pre ++ rest) = pickExact r rest.
Proof.
  induction 1 as [|k pre Hk _ IH]; simpl; [reflexivity|].
  now rewrite Hk.
Qed.

Lemma pickExact_none (r : row) (exactKeys : list string) :
  Forall (fun k => nonEmpty (get r k) = false) exactKeys ->
  pickExact r exactKeys = None.
Proof.
  intros H. rewrite <- (app_nil_r exactKeys). now rewrite pickExact_skip.
Qed.


Lemma someIncluded_spec (fuzzyParts : list string) (lk : string) :
  someIncluded (map toLowerCase fuzzyParts) lk = true <->
  exists p, In p fuzzyParts /\ contains lk (toLowerCase p).
Proof.
  unfold someIncluded. rewrite existsb_exists. split.
  - intros (q & Hq & Hinc). apply in_map_iff in Hq as (p & <- & Hp).
    exists p. split; [assumption | now apply includes_contains].
  - intros (p & Hp & Hc). exists (toLowerCase p). split.
    + now apply in_map.
    + now apply includes_contains.
Qed.

Lemma fuzzyHit_dec (fuzzyParts : list string) (k : string) (v : value) :
  (negb (nonEmpty v) = false /\
   someIncluded (map toLowerCase fuzzyParts) (toLowerCase k) = true)
  <-> fuzzyHit fuzzyParts (k, v).
Proof.
  unfold fuzzyHit. simpl. rewrite someIncluded_spec, negb_false_iff. reflexivity.
Qed.

Lemma pickFuzzy_skip (fuzzyParts : list string) (pre rest : row) :
  Forall (fun e => ~ fuzzyHit fuzzyParts e) pre ->
  pickFuzzy (map toLowerCase fuzzyParts) (pre ++ rest)
  = pickFuzzy (map toLowerCase fuzzyParts) rest.
Proof.
  induction 1 as [|[k v] pre Hk _ IH]; simpl; [reflexivity|].
  destruct (negb (nonEmpty v)) eqn:Hv; [assumption|].
  destruct (someIncluded _ _) eqn:Hs; [|assumption].
  exfalso. apply Hk. apply fuzzyHit_dec. auto.
Qed.

Lemma pickFuzzy_hit (fuzzyParts : list string) (k : string) (v : value) (rest : row) :
  fuzzyHit fuzzyParts (k, v) ->
  pickFuzzy (map toLowerCase fuzzyParts) ((k, v) :: rest) = Some v.
Proof.
  intros H. apply fuzzyHit_dec in H as [Hv Hs]. simpl. now rewrite Hv, Hs.
Qed.










(** ** Classification *)

Ltac to_includes :=
  repeat match goal with
    | H : contains _ _ |- _ => apply includes_contains in H
    | H : ~ contains _ _ |- _ => apply includes_not_contains in H
    | H : _ /\ _ |- _ => destruct H
    end.

Ltac to_contains :=
  repeat match goal with
    | H : includes _ _ = true |- _ => apply includes_contains in H
    | H : includes _ _ = false |- _ => apply includes_not_contains in H
    end.

Lemma lowered_str (s : string) : lowered (VStr s) = toLowerCase s.
Proof.
  unfold lowered, orElse. simpl.
  destruct (String.eqb_spec s "") as [->|]; reflexivity.
Qed.

Lemma lowered_idem (x : value) : lowered (VStr (lowered x)) = lowered x.
Proof. rewrite lowered_str. unfold lowered. apply toLowerCase_idem. Qed.

Lemma isDirection_total (t : string) : exists d, isDirection t d.
Proof.
  destruct (includes t "bull") eqn:Hb; [|destruct (includes t "bear") eqn:Hr].
  - exists Bull. now apply includes_contains.
  - exists Bear. split; [now apply includes_not_contains | now apply includes_contains].
  - exists Neutral. split; now apply includes_not_contains.
Qed.

Lemma isDirection_unique (t : string) (d d' : direction) :
  isDirection t d -> isDirection t d' -> d = d'.
Proof. destruct d, d'; simpl; intros H H'; to_includes; congruence. Qed.

(** The summary counts a row under the direction the claim gives it. *)
Lemma countBias_direction (s : stats) (t : string) (d : direction) :
  isDirection t d ->
  countBias s t = bumpStrong t (bumpDirection d (incTotal s)).
Proof.
  intros H. unfold countBias, bumpStrong.
  destruct (String.eqb_spec t "") as [->|_].
  - destruct d; simpl in H; to_includes; try discriminate. reflexivity.
  - destruct d; simpl in H; to_includes;
      repeat match goal with H : includes _ _ = _ |- _ => rewrite H; clear H end;
      reflexivity.
Qed.

(** The row class agrees with the direction unless the text contains
    both markers. *)
Lemma biasClass_direction (t : string) (d : direction) :
  isDirection t d -> ~ (contains t "bull" /\ contains t "bear") ->
  biasClass t
  = if includes t "strong" then directionClass d +:+ " bias-strong"
    else directionClass d.
Proof.
  intros H Hnot. unfold biasClass.
  destruct (includes t "bull") eqn:Hb, (includes t "bear") eqn:Hr.
  - exfalso. apply Hnot. split; now apply includes_contains.
  - destruct d; simpl in H; to_includes; try congruence. reflexivity.
  - destruct d; simpl in H; to_includes; try congruence. reflexivity.
  - destruct d; simpl in H; to_includes; try congruence. reflexivity.
Qed.

Lemma biasClass_both (t : string) :
  contains t "bull" -> contains t "bear" ->
  biasClass t = if includes t "strong" then "bias-bear bias-strong" else "bias-bear".
Proof.
  intros Hb Hr. to_includes. unfold biasClass. rewrite Hb, Hr.
  destruct (includes t "strong"); reflexivity.
Qed.

(** C3: on the text "Bullish bias, bearish risk", which contains both
    markers, the summary counts the row as bull, as the claim says,
    but the class that [buildNakshatraRows] gives the bias cell is the
    bear one: its second test is not an [else] branch. *)
Theorem biasClass_bear_overrides_bull :
  isDirection (lowered (VStr mixedBias)) Bull /\
  contains (lowered (VStr mixedBias)) "bear" /\
  countBias zero (lowered (VStr mixedBias)) = bumpDirection Bull (incTotal zero) /\
  biasClass (lowered (VStr mixedBias)) = directionClass Bear.
Proof.
  split; [|split; [|split]].
  - apply includes_contains. reflexivity.
  - apply includes_contains. reflexivity.
  - reflexivity.
  - reflexivity.
Qed.

Lemma isQuality_total (t : string) : exists q, isQuality t q.
Proof.
  unfold isQuality.
  destruct (includes t "soft") eqn:H1; [exists Soft; left; now apply includes_contains|].
  destruct (includes t "mridu") eqn:H2; [exists Soft; right; now apply includes_contains|].
  assert (Hs : ~ (contains t "soft" \/ contains t "mridu")).
  { intros [H|H]; apply includes_contains in H; congruence. }
  destruct (includes t "sharp") eqn:H3;
    [exists Sharp; split; [exact Hs | left; now apply includes_contains]|].
  destruct (includes t "tikshna") eqn:H4;
    [exists Sharp; split; [exact Hs | right; now apply includes_contains]|].
  exists NoQuality. split; [exact Hs|].
  intros [H|H]; apply includes_contains in H; congruence.
Qed.

Lemma qualClass_isQuality (t : string) (q : quality) :
  isQuality t q -> qualClass t = qualityClass q.
Proof.
  unfold isQuality, qualClass. intros H.
  destruct (includes t "soft") eqn:H1, (includes t "mridu") eqn:H2,
           (includes t "sharp") eqn:H3, (includes t "tikshna") eqn:H4;
    to_contains; destruct q; simpl; try reflexivity; tauto.
Qed.

(** C6: the class of the quality cell follows the lower-cased quality
    text: soft when it contains "soft" or "mridu", otherwise sharp
    when it contains "sharp" or "tikshna", otherwise none; exactly one
    of the three applies to every text, and a text with a soft and a
    sharp marker is soft. *)
Theorem quality_soft_priority :
  (forall raw : string, exists q, isQuality (toLowerCase raw) q) /\
  (forall (raw : string) (q : quality),
     isQuality (toLowerCase raw) q ->
     qualClass (lowered (VStr raw)) = qualityClass q) /\
  (forall raw : string,
     contains (toLowerCase raw) "soft" \/ contains (toLowerCase raw) "mridu" ->
     contains (toLowerCase raw) "sharp" \/ contains (toLowerCase raw) "tikshna" ->
     qualClass (lowered (VStr raw)) = "qual-soft").
Proof.
  split; [|split].
  - intros raw. apply isQuality_total.
  - intros raw q H. rewrite lowered_str. now apply qualClass_isQuality.
  - intros raw Hsoft _. rewrite lowered_str.
    now apply (qualClass_isQuality _ Soft).
Qed.

Lemma quality_soft_priority_witness :
  qualClass (lowered (VStr "Tikshna (sharp)")) = "qual-sharp" /\
  qualClass (lowered (VStr "Mridu, then sharp")) = "qual-soft".
Proof.
  split.
  - apply (proj1 (proj2 quality_soft_priority) "Tikshna (sharp)" Sharp).
    split.
    + intros [H|H]; apply includes_contains in H; discriminate H.
    + left. apply includes_contains. reflexivity.
  - apply (proj2 (proj2 quality_soft_priority) "Mridu, then sharp").
    + right. apply includes_contains. reflexivity.
    + left. apply includes_contains. reflexivity.
Defined.

Lemma firstMatch_total (u : string) (tests : list (string * recommendation)) :
  exists r, firstMatch u tests r.
Proof.
  induction tests as [|[needle tag] rest [r IH]]; simpl.
  - now exists NoRec.
  - destruct (includes u needle) eqn:H.
    + exists tag. left. split; [now apply includes_contains | reflexivity].
    + exists r. right. split; [now apply includes_not_contains | assumption].
Qed.

Lemma firstMatch_unique (u : string) (tests : list (string * recommendation))
    (r r' : recommendation) :
  firstMatch u tests r -> firstMatch u tests r' -> r = r'.
Proof.
  induction tests as [|[needle tag] rest IH]; simpl.
  - congruence.
  - intros [[H ->]|[H Hr]] [[H' ->]|[H' Hr']]; try contradiction; auto.
Qed.

Lemma recClass_firstMatch (u : string) (r : recommendation) :
  firstMatch u recTests r -> App.recClass u = recommendationClass r.
Proof.
  unfold App.recClass. simpl.
  intros [[H ->]|[H1 [[H ->]|[H2 [[H ->]|[H3 [[H ->]|[H4 ->]]]]]]]];
    to_includes;
    repeat match goal with H : includes _ _ = _ |- _ => rewrite H; clear H end;
    reflexivity.
Qed.

Lemma countRec_firstMatch (u : string) (r : recommendation) (s : App.stats) :
  firstMatch u recTests r ->
  App.countRec s u = bumpRecommendation r (App.incTotal s).
Proof.
  unfold App.countRec. simpl.
  intros [[H ->]|[H1 [[H ->]|[H2 [[H ->]|[H3 [[H ->]|[H4 ->]]]]]]]];
    to_includes;
    repeat match goal with H : includes _ _ = _ |- _ => rewrite H; clear H end;
    reflexivity.
Qed.

Lemma recOf_str (raw : string) :
  App.recOf [("trade_recommendation", VStr raw)] = inr (toUpperCase raw).
Proof.
  unfold App.recOf, orElse. simpl.
  destruct (String.eqb_spec raw "") as [->|]; reflexivity.
Qed.

Lemma recOf_get (r : row) (raw : string) :
  get r "trade_recommendation" = VStr raw -> App.recOf r = inr (toUpperCase raw).
Proof.
  intros H. unfold App.recOf, orElse. rewrite H. simpl.
  destruct (String.eqb_spec raw "") as [->|]; reflexivity.
Qed.

Lemma renderRow_recClass (sessKey timeframe : string) (r : row) (raw : string) (t : App.tr) :
  get r "trade_recommendation" = VStr raw ->
  App.renderRow sessKey timeframe r = inr t ->
  App.tdRecClass t = App.recClass (toUpperCase raw).
Proof.
  intros H. unfold App.renderRow.
  destruct (App.callToLowerCase _) as [e|biasText]; [discriminate|].
  fold (App.recOf r). rewrite (recOf_get r raw H).
  intros [= <-]. reflexivity.
Qed.

Lemma app_stats_eq (a b : App.stats) :
  App.buy a = App.buy b -> App.strongBuy a = App.strongBuy b ->
  App.sell a = App.sell b -> App.strongSell a = App.strongSell b ->
  App.total a = App.total b -> a = b.
Proof. destruct a, b; simpl; congruence. Qed.

(** C4: the upper-cased recommendation text is tested against
    "STRONG BUY", "BUY", "STRONG SELL", "SELL" in that order and the
    first test it passes decides, none otherwise: every text has
    exactly one of the five tags.  For a row holding the text under
    "trade_recommendation", the cell that [buildTable] renders gets
    the class of that tag, and the step of [buildSummary] adds one to
    [total] and to the counter of that tag alone (to no counter for
    none), leaving the other sessions as they are.  A text containing
    "STRONG BUY" also contains "BUY" and is tagged strong buy, never
    buy; "STRONG BUY SIGNAL" is rendered as rec-strong-buy and counted
    under strongBuy. *)
Theorem recommendation_first_match :
  (forall raw : string, exists tag, firstMatch (toUpperCase raw) recTests tag) /\
  (forall (raw : string) (tag tag' : recommendation),
     firstMatch (toUpperCase raw) recTests tag ->
     firstMatch (toUpperCase raw) recTests tag' -> tag = tag') /\
  (forall (r : row) (raw : string) (tag : recommendation)
          (sessKey timeframe : string) (t : App.tr),
     get r "trade_recommendation" = VStr raw ->
     firstMatch (toUpperCase raw) recTests tag ->
     App.renderRow sessKey timeframe r = inr t ->
     App.tdRecClass t
     = match tag with
       | StrongBuy => "rec-strong-buy"
       | Buy => "rec-buy"
       | StrongSell => "rec-strong-sell"
       | Sell => "rec-sell"
       | NoRec => ""
       end) /\
  (forall (r : row) (raw : string) (tag : recommendation)
          (sessKey : string) (st : gmap string App.stats) (s : App.stats),
     get r "trade_recommendation" = VStr raw ->
     firstMatch (toUpperCase raw) recTests tag ->
     st !! sessKey = Some s ->
     exists st',
       App.countRow sessKey st r = inr st' /\
       st' !! sessKey
       = Some {| App.buy := App.buy s + match tag with Buy => 1 | _ => 0 end;
                 App.strongBuy :=
                   App.strongBuy s + match tag with StrongBuy => 1 | _ => 0 end;
                 App.sell := App.sell s + match tag with Sell => 1 | _ => 0 end;
                 App.strongSell :=
                   App.strongSell s + match tag with StrongSell => 1 | _ => 0 end;
                 App.total := App.total s + 1 |} /\
       forall k, k <> sessKey -> st' !! k = st !! k) /\
  (forall (raw : string) (tag : recommendation),
     contains (toUpperCase raw) "STRONG BUY" ->
     contains (toUpperCase raw) "BUY" /\
     (firstMatch (toUpperCase raw) recTests tag -> tag = StrongBuy)) /\
  match App.buildTable (Some strongBuySignal) "1h" with
  | inr [t] => App.tdRecClass t
  | _ => ""%string
  end = "rec-strong-buy"%string /\
  match App.collectStats (Some strongBuySignal) with
  | inr st => st !! "asia"
  | inl _ => None
  end
  = Some {| App.buy := 0; App.strongBuy := 1; App.sell := 0;
            App.strongSell := 0; App.total := 1 |}.
Proof.
  split; [|split; [|split; [|split; [|split; [|split]]]]].
  - intros raw. apply firstMatch_total.
  - intros raw tag tag'. apply firstMatch_unique.
  - intros r raw tag sessKey timeframe t Hget Hfm Hrow.
    rewrite (renderRow_recClass _ _ _ _ _ Hget Hrow).
    rewrite (recClass_firstMatch _ _ Hfm). destruct tag; reflexivity.
  - intros r raw tag sessKey st s Hget Hfm Hst.
    exists (alter (fun s => App.countRec s (toUpperCase raw)) sessKey st).
    split; [|split].
    + unfold App.countRow. now rewrite (recOf_get r raw Hget).
    + rewrite lookup_alter_eq, Hst. simpl. f_equal.
      rewrite (countRec_firstMatch _ _ s Hfm).
      destruct tag; apply app_stats_eq; simpl; lia.
    + intros k Hk. apply lookup_alter_ne. congruence.
  - intros raw tag H.
    assert (Hfm : firstMatch (toUpperCase raw) recTests StrongBuy).
    { simpl. left. now split. }
    split.
    + apply (contains_trans _ "STRONG BUY"); [assumption|].
      apply includes_contains. reflexivity.
    + intros Htag. exact (firstMatch_unique _ _ _ _ Htag Hfm).
  - reflexivity.
  - reflexivity.
Qed.

Lemma recommendation_first_match_witness :
  (exists t,
     App.renderRow "asia" "1h" [("trade_recommendation", VStr "Strong Sell (weak buy-side)")]
     = inr t /\ App.tdRecClass t = "rec-buy") /\
  (exists st',
     App.countRow "asia" (<["asia" := App.zero]> ∅)
       [("trade_recommendation", VStr "strong sell now")] = inr st' /\
     st' !! "asia"
     = Some {| App.buy := 0; App.strongBuy := 0; App.sell := 0;
               App.strongSell := 1; App.total := 1 |}).
Proof.
  assert (H1 : firstMatch (toUpperCase "Strong Sell (weak buy-side)") recTests Buy).
  { simpl. right. split.
    - intros H. apply includes_contains in H. discriminate H.
    - left. split; [|reflexivity]. apply includes_contains. reflexivity. }
  assert (H2 : firstMatch (toUpperCase "strong sell now") recTests StrongSell).
  { simpl. right. split; [intros H; apply includes_contains in H; discriminate H|].
    right. split; [intros H; apply includes_contains in H; discriminate H|].
    left. split; [|reflexivity]. apply includes_contains. reflexivity. }
  split.
  - destruct (App.renderRow "asia" "1h"
                [("trade_recommendation", VStr "Strong Sell (weak buy-side)")])
      as [e|t] eqn:E; [vm_compute in E; discriminate E|].
    exists t. split; [reflexivity|].
    exact (proj1 (proj2 (proj2 recommendation_first_match))
             [("trade_recommendation", VStr "Strong Sell (weak buy-side)")]
             "Strong Sell (weak buy-side)" Buy "asia" "1h" t eq_refl H1 E).
  - assert (H3 : (<["asia" := App.zero]> ∅ : gmap string App.stats) !! "asia"
                 = Some App.zero) by reflexivity.
    destruct (proj1 (proj2 (proj2 (proj2 recommendation_first_match)))
                [("trade_recommendation", VStr "strong sell now")]
                "strong sell now" StrongSell "asia" (<["asia" := App.zero]> ∅) App.zero
                eq_refl H2 H3) as (st' & Hrow & Hst & _).
    exists st'. split; [exact Hrow | exact Hst].
Defined.

(** ** One step of the summary depends on the row only *)

Lemma delta_countBias (t : string) (s1 s2 : stats) :
  delta s1 (countBias s1 t) = delta s2 (countBias s2 t).
Proof.
  unfold delta, countBias.
  destruct (String.eqb t ""), (includes t "bull"), (includes t "bear"),
           (includes t "strong"); simpl;
    repeat match goal with |- (_, _) = (_, _) => f_equal end; lia.
Qed.

Lemma countRow_other (sessKey k : string) (st : gmap string stats) (r : row) :
  k <> sessKey -> countRow sessKey st r !! k = st !! k.
Proof. intros Hne. unfold countRow. now apply lookup_alter_ne. Qed.

(** ** What counting a row writes to *)

Lemma countRows_own_entry (k : string) (rows : list row) (h : PlainObject.heap) :
  PlainObject.resolve h k = Some PlainObject.OwnEntry ->
  PlainObject.builtIns (fold_left (PlainObject.countRow k) rows h)
  = PlainObject.builtIns h.
Proof.
  revert h. induction rows as [|r rows IH]; intros h Hres; [reflexivity|].
  cbn [fold_left]. rewrite IH.
  - unfold PlainObject.countRow. now rewrite Hres.
  - unfold PlainObject.countRow. rewrite Hres.
    unfold PlainObject.resolve in *. cbn [PlainObject.stats].
    destruct (PlainObject.own (PlainObject.stats h) k) as [o|] eqn:E.
    + assert (Hup : forall f st, PlainObject.own st k = Some o ->
                PlainObject.own (PlainObject.update f k st) k = Some (f o)).
      { intros f st. induction st as [|[k0 x] st IHst]; simpl; [discriminate|].
        destruct (String.eqb k0 k) eqn:Ek; simpl; rewrite Ek; [congruence | exact IHst]. }
      now rewrite (Hup _ _ E).
    + destruct (PlainObject.inherits k); discriminate.
Qed.

(** When no session is named like a member of [Object.prototype],
    counting writes to the entries of [stats] only. *)
Lemma collectStats_own_only (data : report) :
  Forall (fun e => PlainObject.inherits (fst e) = false) (sessionEntries data) ->
  PlainObject.builtIns (PlainObject.collectStats data) = ∅.
Proof.
  unfold PlainObject.collectStats.
  assert (Hgen : forall es h,
            Forall (fun e => PlainObject.inherits (fst e) = false) es ->
            PlainObject.builtIns (fold_left PlainObject.countSession es h)
            = PlainObject.builtIns h).
  { induction es as [|[k rows] es IH]; intros h Hall; [reflexivity|].
    apply Forall_cons in Hall as [Hk Hall]. simpl in Hk.
    cbn [fold_left]. rewrite IH by assumption.
    unfold PlainObject.countSession.
    destruct (PlainObject.resolve h k) as [[|]|] eqn:Hres.
    - now apply countRows_own_entry.
    - unfold PlainObject.resolve in Hres. rewrite Hk in Hres.
      destruct (PlainObject.own (PlainObject.stats h) k); discriminate.
    - rewrite countRows_own_entry; [reflexivity|].
      unfold PlainObject.resolve in *. cbn [PlainObject.stats].
      destruct (PlainObject.own (PlainObject.stats h) k) as [o|] eqn:E; [discriminate|].
      assert (Hown : forall st, PlainObject.own st k = None ->
                PlainObject.own (st ++ [(k, PlainObject.zero)]) k
                = Some PlainObject.zero).
      { induction st as [|[k0 x] st IHst]; simpl.
        - now rewrite String.eqb_refl.
        - destruct (String.eqb k0 k); [discriminate | exact IHst]. }
      now rewrite (Hown _ E). }
  intros H. now rewrite Hgen.
Qed.

(** C9: what [buildSummary] adds for a row is a function of the row,
    but the step is not free of effects outside its accumulator.  For
    the session key "toString", [stats[sessKey]] is the function
    inherited from [Object.prototype], so no entry is created and the
    counters of the row are written on that built-in, where they
    become [NaN]; [stats] stays empty and the summary row shows the
    "No rows" pill. *)
Theorem summary_writes_on_built_in :
  PlainObject.stats (PlainObject.collectStats toStringSession) = [] /\
  PlainObject.builtIns (PlainObject.collectStats toStringSession) !! "toString"
  = Some {| PlainObject.bull := PlainObject.JNaN;
            PlainObject.bear := PlainObject.JUndefined;
            PlainObject.neutral := PlainObject.JUndefined;
            PlainObject.strong := PlainObject.JUndefined;
            PlainObject.total := PlainObject.JNaN |} /\
  PlainObject.buildSummary toStringSession "1h" = [PillNoRows].
Proof. split; [reflexivity|]. split; reflexivity. Qed.

(** ** Invariants of the session summaries *)

Lemma countBias_invariant (s : stats) (t : string) :
  directionInvariant s -> directionInvariant (countBias s t).
Proof.
  unfold directionInvariant, countBias.
  destruct (String.eqb t ""), (includes t "bull"), (includes t "bear"),
           (includes t "strong"); simpl; lia.
Qed.

Lemma countRow_invariant (sessKey : string) (st : gmap string stats) (r : row) :
  map_Forall (fun _ => directionInvariant) st ->
  map_Forall (fun _ => directionInvariant) (countRow sessKey st r).
Proof.
  intros H k s. unfold countRow.
  destruct (decide (k = sessKey)) as [->|Hne].
  - rewrite lookup_alter_eq. destruct (st !! sessKey) as [s0|] eqn:E; [|discriminate].
    intros [= <-]. apply countBias_invariant. exact (H _ _ E).
  - rewrite lookup_alter_ne by congruence. apply H.
Qed.

Lemma countRows_invariant (sessKey : string) (rows : list row) (st : gmap string stats) :
  map_Forall (fun _ => directionInvariant) st ->
  map_Forall (fun _ => directionInvariant) (fold_left (countRow sessKey) rows st).
Proof.
  revert st. induction rows as [|r rows IH]; intros st H; simpl; [assumption|].
  apply IH. now apply countRow_invariant.
Qed.

Lemma zero_invariant : directionInvariant zero.
Proof. unfold directionInvariant. simpl. lia. Qed.

Lemma countSession_invariant (st : gmap string stats) (entry : string * list row) :
  map_Forall (fun _ => directionInvariant) st ->
  map_Forall (fun _ => directionInvariant) (countSession st entry).
Proof.
  destruct entry as [sessKey rows]. intros H. unfold countSession.
  apply countRows_invariant.
  destruct (st !! sessKey); [assumption|].
  apply map_Forall_insert_2; [apply zero_invariant | assumption].
Qed.

Lemma collectStats_invariant (data : report) :
  map_Forall (fun _ => directionInvariant) (collectStats data).
Proof.
  unfold collectStats.
  assert (H : map_Forall (fun _ : string => directionInvariant) (∅ : gmap string stats))
    by apply map_Forall_empty.
  revert H. generalize (∅ : gmap string stats).
  induction (sessionEntries data) as [|e es IH]; intros st H; simpl; [assumption|].
  apply IH. now apply countSession_invariant.
Qed.

Lemma countRec_invariant (s : App.stats) (u : string) :
  recommendationInvariant s -> recommendationInvariant (App.countRec s u).
Proof.
  unfold recommendationInvariant, App.countRec.
  destruct (includes u "STRONG BUY"), (includes u "BUY"),
           (includes u "STRONG SELL"), (includes u "SELL"); simpl; lia.
Qed.

Lemma app_countRow_invariant (sessKey : string) (st st' : gmap string App.stats) (r : row) :
  map_Forall (fun _ => recommendationInvariant) st ->
  App.countRow sessKey st r = inr st' ->
  map_Forall (fun _ => recommendationInvariant) st'.
Proof.
  intros H. unfold App.countRow. destruct (App.recOf r) as [e|u]; [discriminate|].
  intros [= <-] k s.
  destruct (decide (k = sessKey)) as [->|Hne].
  - rewrite lookup_alter_eq. destruct (st !! sessKey) as [s0|] eqn:E; [|discriminate].
    intros [= <-]. apply countRec_invariant. exact (H _ _ E).
  - rewrite lookup_alter_ne by congruence. apply H.
Qed.

(** A property kept by every step of a throwing loop holds when the
    loop completes. *)
Lemma foldM_invariant {A B : Type} (P : B -> Prop) (f : B -> A -> exn + B)
    (l : list A) (b b' : B) :
  (forall x a y, P x -> f x a = inr y -> P y) ->
  P b -> foldM f l b = inr b' -> P b'.
Proof.
  intros Hstep. revert b. induction l as [|a l IH]; intros b Hb; simpl.
  - now intros [= <-].
  - destruct (f b a) as [e|y] eqn:E; [discriminate|].
    apply IH. exact (Hstep _ _ _ Hb E).
Qed.

Lemma app_zero_invariant : recommendationInvariant App.zero.
Proof. unfold recommendationInvariant. simpl. lia. Qed.

Lemma app_countSession_invariant (st st' : gmap string App.stats)
    (entry : string * list row) :
  map_Forall (fun _ => recommendationInvariant) st ->
  App.countSession st entry = inr st' ->
  map_Forall (fun _ => recommendationInvariant) st'.
Proof.
  destruct entry as [sessKey rows]. intros H. unfold App.countSession.
  apply foldM_invariant.
  - intros x a y Hx. now apply app_countRow_invariant.
  - destruct (st !! sessKey); [assumption|].
    apply map_Forall_insert_2; [apply app_zero_invariant | assumption].
Qed.

Lemma app_collectStats_invariant (data : payload) (st : gmap string App.stats) :
  App.collectStats data = inr st ->
  map_Forall (fun _ => recommendationInvariant) st.
Proof.
  unfold App.collectStats. destruct (App.payloadEntries data) as [e|entries]; [discriminate|].
  apply foldM_invariant.
  - intros x a y. apply app_countSession_invariant.
  - apply map_Forall_empty.
Qed.

(** C5: in the summary of [nakshatra_rationale.js] every session has
    [bull + bear + neutral = total] and [0 <= strong <= total], each
    row adding one to [total], to exactly one direction counter, and
    to [strong] when its text contains "strong"; in the summary of
    [app.js], whenever it is computed, every session has
    [buy + strongBuy + sell + strongSell <= total], each row adding
    one to [total] and to at most one recommendation counter. *)
Theorem summary_invariants :
  (forall (data : report) (sess : string) (s : stats),
     collectStats data !! sess = Some s ->
     bull s + bear s + neutral s = total s /\ 0 <= strong s <= total s) /\
  (forall (s : stats) (t : string),
     exists d, countBias s t = bumpStrong t (bumpDirection d (incTotal s))) /\
  (forall (data : payload) (st : gmap string App.stats) (sess : string) (s : App.stats),
     App.collectStats data = inr st -> st !! sess = Some s ->
     App.buy s + App.strongBuy s + App.sell s + App.strongSell s <= App.total s) /\
  (forall (s : App.stats) (u : string),
     exists r, App.countRec s u = bumpRecommendation r (App.incTotal s)).
Proof.
  split; [|split; [|split]].
  - intros data sess s H.
    destruct (collectStats_invariant data sess s H) as (H1 & _ & _ & _ & H2). auto.
  - intros s t. destruct (isDirection_total t) as [d Hd].
    exists d. now apply countBias_direction.
  - intros data st sess s Hst H.
    destruct (app_collectStats_invariant data st Hst sess s H) as (_ & _ & _ & _ & H1).
    exact H1.
  - intros s u. destruct (firstMatch_total u recTests) as [r Hr].
    exists r. now apply countRec_firstMatch.
Qed.

Lemma summary_invariants_witness :
  collectStats sampleReport !! "asia"
  = Some {| bull := 1; bear := 1; neutral := 1; strong := 1; total := 3 |} /\
  (1 + 1 + 1 = 3 /\ 0 <= 1 <= 3) /\
  exists st,
    App.collectStats (Some sampleReport) = inr st /\
    st !! "asia"
    = Some {| App.buy := 1; App.strongBuy := 0; App.sell := 0;
              App.strongSell := 1; App.total := 3 |} /\
    1 + 0 + 0 + 1 <= 3.
Proof.
  split; [reflexivity|]. split.
  - apply (proj1 summary_invariants sampleReport "asia"
             {| bull := 1; bear := 1; neutral := 1; strong := 1; total := 3 |}).
    reflexivity.
  - destruct (App.collectStats (Some sampleReport)) as [e|st] eqn:E;
      [vm_compute in E; discriminate E|].
    exists st. split; [reflexivity|].
    assert (H : st !! "asia"
                = Some {| App.buy := 1; App.strongBuy := 0; App.sell := 0;
                          App.strongSell := 1; App.total := 3 |}).
    { vm_compute in E. injection E as <-. reflexivity. }
    split; [exact H|].
    exact (proj1 (proj2 (proj2 summary_invariants)) (Some sampleReport) st "asia" _ E H).
Defined.

(** ** The render passes *)

Lemma classAdd_elem (c : string) (l : list string) : c ∈ classAdd c l.
Proof.
  unfold classAdd. case_bool_decide; [assumption|].
  apply elem_of_app. right. now apply list_elem_of_singleton.
Qed.

Lemma classAdd_other (c c' : string) (l : list string) :
  c' <> c -> c' ∈ classAdd c l <-> c' ∈ l.
Proof.
  intros Hne. unfold classAdd. case_bool_decide; [reflexivity|].
  rewrite elem_of_app, list_elem_of_singleton. tauto.
Qed.

Lemma classRemove_gone (c : string) (cs l : list string) :
  c ∈ cs -> c ∉ classRemove cs l.
Proof. unfold classRemove. rewrite list_elem_of_filter. tauto. Qed.

Lemma status_error_only (l : list string) :
  ("error" ∈ classAdd "error" (classRemove ["ok"; "error"] l)) /\
  ("ok" ∉ classAdd "error" (classRemove ["ok"; "error"] l)).
Proof.
  split; [apply classAdd_elem|].
  rewrite classAdd_other by discriminate.
  apply classRemove_gone. apply elem_of_cons. now left.
Qed.

Lemma status_ok_only (l : list string) :
  ("ok" ∈ classAdd "ok" (classRemove ["ok"; "error"] l)) /\
  ("error" ∉ classAdd "ok" (classRemove ["ok"; "error"] l)).
Proof.
  split; [apply classAdd_elem|].
  rewrite classAdd_other by discriminate.
  apply classRemove_gone. apply elem_of_cons. right. apply elem_of_cons. now left.
Qed.

Lemma contains_app_l (a s p : string) : contains s p -> contains (a +:+ s) p.
Proof.
  intros (x & y & ->). exists (a +:+ x), y. now rewrite string_app_assoc.
Qed.

Lemma contains_prefix (s b : string) : contains (s +:+ b) s.
Proof. exists ""%string, b. reflexivity. Qed.

Lemma contains_suffix (a s : string) : contains (a +:+ s) s.
Proof. apply contains_app_l, contains_refl. Qed.

(** A response that is not 2xx ends the [try] of [loadNakshatra] right
    after the one request. *)
Lemma nakshatra_tryBody_not_ok (b : browser) (f : form) (p : page) :
  dateInput f <> ""%string ->
  ok (fetch b (nakshatraUrl b f)) = false ->
  tryBody b f p
  = (inl (Error ("HTTP " +:+ Z_to_string (status (fetch b (nakshatraUrl b f))) +:+
                 ": " +:+ slice0 200 (text (fetch b (nakshatraUrl b f))))),
     logRequest (nakshatraUrl b f) p).
Proof.
  intros Hd Hok. unfold nakshatraUrl in *.
  unfold tryBody, mbind, pass_bind, Pass.bind, mret, pass_ret, Pass.ret,
    Pass.throw, doFetch.
  destruct (String.eqb_spec (dateInput f) "") as [|_]; [contradiction|].
  now rewrite Hok.
Qed.

Lemma report_tryBody_not_ok (b : browser) (f : form) (p : App.page) :
  ok (fetch b (reportUrl b f)) = false ->
  App.tryBody b f p
  = (inl (Error ("HTTP " +:+ Z_to_string (status (fetch b (reportUrl b f))))),
     App.logRequest (reportUrl b f) p).
Proof.
  intros Hok. unfold reportUrl in *.
  unfold App.tryBody, mbind, pass_bind, Pass.bind, mret, pass_ret, Pass.ret,
    Pass.throw, App.doFetch.
  now rewrite Hok.
Qed.

(** C7, as the code has it: when the response to the report request is
    not 2xx, the pass of [nakshatra_rationale.js] ends in the error
    state with the label "[ERR] HTTP <status>: <first 200 characters
    of the body>", and the pass of [app.js] ends in the error state
    with the text "[ERR] HTTP <status>", which carries no part of the
    body; in both, one request was made, the table and the summary row
    are empty and the download link is untouched. *)
Theorem non_2xx_reports_status (b : browser) (f : form) :
  (forall p : page,
     dateInput f <> ""%string ->
     ok (fetch b (nakshatraUrl b f)) = false ->
     statusLabel (loadNakshatra b f p)
     = "[ERR] HTTP " +:+ Z_to_string (status (fetch b (nakshatraUrl b f))) +:+
       ": " +:+ slice0 200 (text (fetch b (nakshatraUrl b f))) /\
     surfacesStatusAndBody (fetch b (nakshatraUrl b f))
       (statusLabel (loadNakshatra b f p)) /\
     ("error" ∈ statusClass (loadNakshatra b f p)) /\
     ("ok" ∉ statusClass (loadNakshatra b f p)) /\
     nakBody (loadNakshatra b f p) = [] /\
     summaryRow (loadNakshatra b f p) = [] /\
     downloadCsv (loadNakshatra b f p) = downloadCsv p /\
     requests (loadNakshatra b f p) = requests p ++ [nakshatraUrl b f]) /\
  (forall p : App.page,
     ok (fetch b (reportUrl b f)) = false ->
     App.statusText (App.loadReport b f p)
     = "[ERR] HTTP " +:+ Z_to_string (status (fetch b (reportUrl b f))) /\
     failedUnrendered (App.loadReport b f p) /\
     ("ok" ∉ App.statusClass (App.loadReport b f p)) /\
     App.downloadCsv (App.loadReport b f p) = App.downloadCsv p /\
     App.requests (App.loadReport b f p) = App.requests p ++ [reportUrl b f]).
Proof.
  split.
  - intros p Hd Hok. unfold loadNakshatra, Pass.tryCatch.
    rewrite nakshatra_tryBody_not_ok by assumption.
    cbn [onError message setStatus logRequest resetUI setSummaryRow setNakBody
         statusLabel statusClass nakBody summaryRow downloadCsv requests].
    destruct (status_error_only (statusClass p)) as [He Ho].
    repeat split; try assumption.
    + do 2 apply contains_app_l. apply contains_prefix.
    + do 4 apply contains_app_l. apply contains_refl.
  - intros p Hok. unfold App.loadReport, Pass.tryCatch, failedUnrendered.
    rewrite report_tryBody_not_ok by assumption.
    cbn [App.onError message App.setStatus App.logRequest App.resetUI
         App.setSummaryRow App.setTableContainer App.statusText App.statusClass
         App.tableContainer App.summaryRow App.downloadCsv App.requests].
    destruct (status_error_only (App.statusClass p)) as [He Ho].
    repeat split; assumption.
Qed.

Lemma non_2xx_reports_status_witness :
  statusLabel (loadNakshatra (browserWith serverError) sampleForm blankNakshatra)
  = "[ERR] HTTP 500: upstream timed out" /\
  App.statusText (App.loadReport (browserWith serverError) sampleForm blankReport)
  = "[ERR] HTTP 500".
Proof.
  split.
  - apply (proj1 (non_2xx_reports_status (browserWith serverError) sampleForm)
             blankNakshatra).
    + intros H. discriminate H.
    + reflexivity.
  - apply (proj2 (non_2xx_reports_status (browserWith serverError) sampleForm)
             blankReport).
    reflexivity.
Defined.

(** C7 as stated fails for [app.js]: on a 500 response with the body
    "upstream timed out" the text of the status element is
    "[ERR] HTTP 500"; it does not show the body. *)
Lemma loadReport_drops_body :
  ok (fetch (browserWith serverError) (reportUrl (browserWith serverError) sampleForm))
  = false /\
  ~ surfacesStatusAndBody serverError
      (App.statusText (App.loadReport (browserWith serverError) sampleForm blankReport)).
Proof.
  split; [reflexivity|].
  intros [_ H]. apply includes_contains in H. vm_compute in H. discriminate H.
Qed.

Lemma nakshatra_tryBody_no_sessions (b : browser) (f : form) (p : page) (data : payload) :
  dateInput f <> ""%string ->
  ok (fetch b (nakshatraUrl b f)) = true ->
  json (fetch b (nakshatraUrl b f)) = inr data ->
  data = None \/ (exists d, data = Some d /\ sessions d = None) ->
  tryBody b f p
  = (inl (Error "No session data returned from API."),
     logRequest (nakshatraUrl b f) p).
Proof.
  intros Hd Hok Hjson Hdata. unfold nakshatraUrl in *.
  unfold tryBody, mbind, pass_bind, Pass.bind, mret, pass_ret, Pass.ret,
    Pass.throw, Pass.lift, doFetch.
  destruct (String.eqb_spec (dateInput f) "") as [|_]; [contradiction|].
  rewrite Hok, Hjson. cbn [negb].
  destruct Hdata as [->|(d & -> & Hs)]; [reflexivity|].
  destruct d as [dt [ss|]]; [discriminate Hs | reflexivity].
Qed.

Lemma report_tryBody_null (b : browser) (f : form) (p : App.page) :
  ok (fetch b (reportUrl b f)) = true ->
  json (fetch b (reportUrl b f)) = inr None ->
  App.tryBody b f p
  = (inl (TypeError "data.sessions"), App.logRequest (reportUrl b f) p).
Proof.
  intros Hok Hjson. unfold reportUrl in *.
  unfold App.tryBody, mbind, pass_bind, Pass.bind, mret, pass_ret, Pass.ret,
    Pass.throw, Pass.lift, App.doFetch.
  rewrite Hok, Hjson. reflexivity.
Qed.

Lemma report_loadReport_no_sessions (b : browser) (f : form) (p : App.page) (d : report) :
  ok (fetch b (reportUrl b f)) = true ->
  json (fetch b (reportUrl b f)) = inr (Some d) ->
  sessions d = None ->
  App.loadReport b f p
  = {| App.statusClass := classAdd "ok" (classRemove ["ok"; "error"] (App.statusClass p));
       App.statusText :=
         "[OK] " +:+ toStr (date d) +:+ " | TF=" +:+ tfSelect f +:+ " | " +:+
         "UTC " +:+ utcNow b +:+ " | Client " +:+ clientNow b +:+ " | Rows 0";
       App.summaryRow := [[PillNoRows]];
       App.tableContainer := [[]];
       App.downloadCsv := "/api/reports/" +:+ dateInput f +:+ "/csv" +:+ App.query b f;
       App.requests := App.requests p ++ [reportUrl b f] |}.
Proof.
  intros Hok Hjson Hs. unfold reportUrl in *.
  unfold App.loadReport, Pass.tryCatch, App.tryBody, mbind, pass_bind, Pass.bind,
    mret, pass_ret, Pass.ret, Pass.throw, Pass.lift, Pass.modify, App.doFetch.
  rewrite Hok, Hjson. cbn [negb].
  unfold App.buildTable, App.buildSummary, App.collectStats, App.payloadEntries,
    sessionEntries.
  rewrite Hs. reflexivity.
Qed.

(** C8, as the code has it: in [nakshatra_rationale.js] a payload that
    is [null] or has no [sessions] ends the pass in the error state
    with "No session data returned from API." and nothing rendered;
    in [app.js] a [null] payload ends the pass in the error state with
    nothing rendered, while a payload without [sessions] is read as
    one with no session: the pass succeeds and renders an empty table
    and the "No rows" pill. *)
Theorem missing_sessions_handling (b : browser) (f : form) :
  (forall (p : page) (data : payload),
     dateInput f <> ""%string ->
     ok (fetch b (nakshatraUrl b f)) = true ->
     json (fetch b (nakshatraUrl b f)) = inr data ->
     data = None \/ (exists d, data = Some d /\ sessions d = None) ->
     statusLabel (loadNakshatra b f p) = "[ERR] No session data returned from API." /\
     ("error" ∈ statusClass (loadNakshatra b f p)) /\
     ("ok" ∉ statusClass (loadNakshatra b f p)) /\
     nakBody (loadNakshatra b f p) = [] /\
     summaryRow (loadNakshatra b f p) = [] /\
     downloadCsv (loadNakshatra b f p) = downloadCsv p) /\
  (forall p : App.page,
     ok (fetch b (reportUrl b f)) = true ->
     json (fetch b (reportUrl b f)) = inr None ->
     App.statusText (App.loadReport b f p)
     = "[ERR] " +:+ typeErrorMessage b "data.sessions" /\
     failedUnrendered (App.loadReport b f p) /\
     App.downloadCsv (App.loadReport b f p) = App.downloadCsv p) /\
  (forall (p : App.page) (d : report),
     ok (fetch b (reportUrl b f)) = true ->
     json (fetch b (reportUrl b f)) = inr (Some d) ->
     sessions d = None ->
     ("ok" ∈ App.statusClass (App.loadReport b f p)) /\
     ("error" ∉ App.statusClass (App.loadReport b f p)) /\
     App.tableContainer (App.loadReport b f p) = [[]] /\
     App.summaryRow (App.loadReport b f p) = [[PillNoRows]] /\
     App.statusText (App.loadReport b f p)
     = "[OK] " +:+ toStr (date d) +:+ " | TF=" +:+ tfSelect f +:+ " | " +:+
       "UTC " +:+ utcNow b +:+ " | Client " +:+ clientNow b +:+ " | Rows 0").
Proof.
  split; [|split].
  - intros p data Hd Hok Hjson Hdata. unfold loadNakshatra, Pass.tryCatch.
    rewrite (nakshatra_tryBody_no_sessions b f _ data) by assumption.
    cbn [onError message setStatus logRequest resetUI setSummaryRow setNakBody
         statusLabel statusClass nakBody summaryRow downloadCsv requests].
    destruct (status_error_only (statusClass p)) as [He Ho].
    repeat split; assumption.
  - intros p Hok Hjson. unfold App.loadReport, Pass.tryCatch, failedUnrendered.
    rewrite report_tryBody_null by assumption.
    cbn [App.onError message App.setStatus App.logRequest App.resetUI
         App.setSummaryRow App.setTableContainer App.statusText App.statusClass
         App.tableContainer App.summaryRow App.downloadCsv App.requests].
    destruct (status_error_only (App.statusClass p)) as [He Ho].
    repeat split; assumption.
  - intros p d Hok Hjson Hs.
    rewrite (report_loadReport_no_sessions b f p d) by assumption.
    cbn [App.statusText App.statusClass App.tableContainer App.summaryRow].
    destruct (status_ok_only (App.statusClass p)) as [Ho He].
    repeat split; assumption.
Qed.

Lemma missing_sessions_handling_witness :
  statusLabel (loadNakshatra (browserWith (okWith (Some noSessions))) sampleForm
                 blankNakshatra)
  = "[ERR] No session data returned from API." /\
  App.statusText (App.loadReport (browserWith (okWith None)) sampleForm blankReport)
  = "[ERR] cannot evaluate data.sessions" /\
  App.summaryRow (App.loadReport (browserWith (okWith (Some noSessions))) sampleForm
                    blankReport)
  = [[PillNoRows]].
Proof.
  split; [|split].
  - apply (proj1 (missing_sessions_handling
                    (browserWith (okWith (Some noSessions))) sampleForm)
             blankNakshatra (Some noSessions)).
    + intros H. discriminate H.
    + reflexivity.
    + reflexivity.
    + right. exists noSessions. split; reflexivity.
  - apply (proj1 (proj2 (missing_sessions_handling
                           (browserWith (okWith None)) sampleForm))
             blankReport); reflexivity.
  - apply (proj2 (proj2 (missing_sessions_handling
                           (browserWith (okWith (Some noSessions))) sampleForm))
             blankReport noSessions); reflexivity.
Defined.

(** C8 as stated fails for [app.js]: on a 200 response whose payload
    has no [sessions] the pass ends in the ok state, with an empty
    table and the "No rows" pill rendered. *)
Lemma loadReport_tolerates_missing_sessions :
  sessions noSessions = None /\
  ~ failedUnrendered
      (App.loadReport (browserWith (okWith (Some noSessions))) sampleForm blankReport).
Proof.
  split; [reflexivity|].
  intros (_ & H & _). vm_compute in H. discriminate H.
Qed.

(** ** The total of a session is its number of rows *)

Lemma countBias_total (s : stats) (t : string) : total (countBias s t) = total s + 1.
Proof.
  unfold countBias.
  destruct (String.eqb t ""), (includes t "bull"), (includes t "bear"),
           (includes t "strong"); reflexivity.
Qed.

Lemma countRows_lookup (k : string) (rows : list row) (st : gmap string stats) (s0 : stats) :
  st !! k = Some s0 ->
  exists s, fold_left (countRow k) rows st !! k = Some s /\
            total s = total s0 + Z.of_nat (length rows).
Proof.
  revert st s0. induction rows as [|r rows IH]; intros st s0 H; simpl fold_left.
  - exists s0. split; [assumption | simpl; lia].
  - destruct (IH (countRow k st r) (countBias s0 (biasOf r))) as (s & Hs & Ht).
    { unfold countRow. now rewrite lookup_alter_eq, H. }
    exists s. split; [assumption|].
    rewrite Ht, countBias_total. cbn [length]. lia.
Qed.

Lemma countRows_other (k k' : string) (rows : list row) (st : gmap string stats) :
  k' <> k -> fold_left (countRow k) rows st !! k' = st !! k'.
Proof.
  intros Hne. revert st. induction rows as [|r rows IH]; intros st; simpl; [reflexivity|].
  rewrite IH. now apply countRow_other.
Qed.

Lemma countSession_other (st : gmap string stats) (k k' : string) (rows : list row) :
  k' <> k -> countSession st (k, rows) !! k' = st !! k'.
Proof.
  intros Hne. unfold countSession. rewrite countRows_other by assumption.
  destruct (st !! k); [reflexivity|]. apply lookup_insert_ne. congruence.
Qed.

Lemma countSessions_other (entries : list (string * list row))
    (st : gmap string stats) (k' : string) :
  k' ∉ entries.*1 -> fold_left countSession entries st !! k' = st !! k'.
Proof.
  revert st. induction entries as [|[k rows] es IH]; intros st Hnot; simpl; [reflexivity|].
  rewrite fmap_cons, not_elem_of_cons in Hnot. destruct Hnot as [Hne Hnot].
  rewrite IH by assumption. now apply countSession_other.
Qed.

Lemma countSessions_total (entries : list (string * list row))
    (st : gmap string stats) (k : string) (rows : list row) :
  st !! k = None -> NoDup entries.*1 -> (k, rows) ∈ entries ->
  exists s, fold_left countSession entries st !! k = Some s /\
            total s = Z.of_nat (length rows).
Proof.
  revert st. induction entries as [|[k0 rows0] es IH]; intros st Hst Hnd Hin.
  - now apply not_elem_of_nil in Hin.
  - rewrite fmap_cons, NoDup_cons in Hnd. destruct Hnd as [Hk0 Hnd].
    apply elem_of_cons in Hin as [[= <- <-]|Hin]; cbn [fold_left].
    + rewrite countSessions_other by assumption.
      unfold countSession. rewrite Hst.
      destruct (countRows_lookup k rows (<[k:=zero]> st) zero) as (s & Hs & Ht).
      { apply lookup_insert_eq. }
      exists s. split; [assumption|]. rewrite Ht. simpl. lia.
    + apply IH; [|assumption|assumption].
      rewrite countSession_other; [assumption|].
      intros ->. apply Hk0. apply list_elem_of_fmap. now exists (k0, rows).
Qed.

(** With distinct session keys, as [Object.entries] gives them, the
    summary has an entry for every session of the payload and its
    [total] is the number of rows of that session: a session without
    rows is there with [total = 0]. *)
Lemma collectStats_total (data : report) (k : string) (rows : list row) :
  NoDup (sessionEntries data).*1 -> (k, rows) ∈ sessionEntries data ->
  exists s, collectStats data !! k = Some s /\ total s = Z.of_nat (length rows).
Proof.
  intros Hnd Hin. unfold collectStats.
  apply countSessions_total; [apply lookup_empty | assumption | assumption].
Qed.

(** ** When the table is built, so is the summary *)

Lemma renderRow_recOf (sessKey timeframe : string) (r : row) (t : App.tr) :
  App.renderRow sessKey timeframe r = inr t -> exists u, App.recOf r = inr u.
Proof.
  unfold App.renderRow, App.recOf.
  destruct (App.callToLowerCase _); [discriminate|].
  destruct (App.callToUpperCase _) as [e|u]; [discriminate|].
  intros _. now exists u.
Qed.

Lemma tableSession_recOf (timeframe sessKey : string) (rows : list row)
    (tbody tbody' : list App.tr) :
  App.tableSession timeframe tbody (sessKey, rows) = inr tbody' ->
  Forall (fun r => exists u, App.recOf r = inr u) rows.
Proof.
  unfold App.tableSession. revert tbody.
  induction rows as [|r rows IH]; intros tbody; simpl; [constructor|].
  destruct (App.renderRow sessKey timeframe r) as [e|t] eqn:E; [discriminate|].
  intros H. constructor; [now apply renderRow_recOf in E | now apply IH in H].
Qed.

Lemma countRows_completes (sessKey : string) (rows : list row)
    (st : gmap string App.stats) :
  Forall (fun r => exists u, App.recOf r = inr u) rows ->
  exists st', foldM (App.countRow sessKey) rows st = inr st'.
Proof.
  intros H. revert st. induction H as [|r rows [u Hu] _ IH]; intros st; simpl.
  - now exists st.
  - unfold App.countRow at 1. rewrite Hu. apply IH.
Qed.

Lemma buildTable_buildSummary (data : payload) (timeframe : string) (table : list App.tr) :
  App.buildTable data timeframe = inr table ->
  exists entries pills,
    App.payloadEntries data = inr entries /\
    App.buildSummary data timeframe = inr pills.
Proof.
  unfold App.buildTable, App.buildSummary, App.collectStats.
  destruct (App.payloadEntries data) as [e|entries]; [discriminate|].
  intros H.
  assert (Hst : forall st, exists st', foldM App.countSession entries st = inr st').
  { revert H. generalize (@nil App.tr).
    induction entries as [|[k rows] es IH]; intros tbody H st; cbn [foldM].
    - now exists st.
    - cbn [foldM] in H.
      destruct (App.tableSession timeframe tbody (k, rows)) as [e|tbody'] eqn:E;
        [discriminate|].
      apply tableSession_recOf in E.
      destruct (countRows_completes k rows
                  (match st !! k with
                   | Some _ => st
                   | None => <[k:=App.zero]> st
                   end) E) as [st' Hst'].
      unfold App.countSession at 1. rewrite Hst'. now apply (IH tbody'). }
  destruct (Hst ∅) as [st' ->]. eauto.
Qed.

(** * Further properties of the code *)

(** ** [pickField] *)

Lemma pickFuzzy_some (fuzzyParts : list string) (r : row) (v : value) :
  pickFuzzy (map toLowerCase fuzzyParts) r = Some v ->
  exists k, In (k, v) r /\ fuzzyHit fuzzyParts (k, v).
Proof.
  induction r as [|[k w] r IH]; simpl; [discriminate|].
  destruct (negb (nonEmpty w)) eqn:Hw.
  - intros H. destruct (IH H) as (k' & Hin & Hhit). exists k'. auto.
  - destruct (someIncluded _ _) eqn:Hs.
    + intros [= <-]. exists k. split; [now left|]. apply fuzzyHit_dec. auto.
    + intros H. destruct (IH H) as (k' & Hin & Hhit). exists k'. auto.
Qed.

Lemma get_all_empty (r : row) (key : string) :
  Forall (fun e => nonEmpty (snd e) = false) r -> nonEmpty (get r key) = false.
Proof.
  induction 1 as [|[k v] r Hv _ IH]; simpl; [reflexivity|].
  destruct (String.eqb k key); assumption.
Qed.



(** ** Classes of the rows *)

(** When the bias text does not contain both "bull" and "bear", the
    class of the bias cell in [buildNakshatraRows] names the direction
    under which [buildSummary] counts the row, followed by
    " bias-strong" exactly when the summary also counts it as
    strong. *)
Theorem row_class_agrees_with_summary (t : string) (d : direction) (s : stats) :
  isDirection t d ->
  ~ (contains t "bull" /\ contains t "bear") ->
  biasClass t
  = (if includes t "strong" then directionClass d +:+ " bias-strong"
     else directionClass d) /\
  countBias s t
  = (if includes t "strong" then incStrong (bumpDirection d (incTotal s))
     else bumpDirection d (incTotal s)).
Proof.
  intros Hd Hnot. split.
  - now apply biasClass_direction.
  - now apply countBias_direction.
Qed.

Lemma row_class_agrees_with_summary_witness :
  biasClass "strong bearish" = "bias-bear bias-strong" /\
  countBias zero "strong bearish"
  = {| bull := 0; bear := 1; neutral := 0; strong := 1; total := 1 |}.
Proof.
  apply (row_class_agrees_with_summary "strong bearish" Bear zero).
  - split.
    + intros H. apply includes_contains in H. discriminate H.
    + apply includes_contains. reflexivity.
  - intros [H _]. apply includes_contains in H. discriminate H.
Defined.

(** The report view ([buildTable]) gives a row one class at most, by
    direction with bull tested before bear, in its strong variant
    exactly when the text contains "strong"; a text with both markers
    is a bull row, and a neutral text gets no class even if it is
    strong. *)
Theorem biasRowClass_direction (t : string) (d : direction) :
  isDirection t d ->
  App.biasRowClass t = directionRowClass d (includes t "strong").
Proof.
  intros H. unfold App.biasRowClass.
  destruct d; simpl in H; to_includes;
    repeat match goal with H : includes _ _ = _ |- _ => rewrite H; clear H end;
    destruct (includes t "strong"); reflexivity.
Qed.

Lemma biasRowClass_direction_witness :
  App.biasRowClass "strong bullish, bearish risk" = ["bias-strong-bull"] /\
  App.biasRowClass "strong but flat" = [].
Proof.
  split.
  - apply (biasRowClass_direction "strong bullish, bearish risk" Bull).
    apply includes_contains. reflexivity.
  - apply (biasRowClass_direction "strong but flat" Neutral).
    split; intros H; apply includes_contains in H; discriminate H.
Defined.

(** ** The table and the row count of the status line *)

Lemma totalRows_fold (l : list (list row)) (acc : Z) :
  fold_left (fun acc rows => acc + Z.of_nat (length rows)) l acc
  = acc + Z.of_nat (length (concat l)).
Proof.
  revert acc. induction l as [|rows l IH]; intros acc; simpl.
  - lia.
  - rewrite IH, length_app. lia.
Qed.

Lemma tableSession_length (timeframe sessKey : string) (rows : list row)
    (tbody tbody' : list App.tr) :
  App.tableSession timeframe tbody (sessKey, rows) = inr tbody' ->
  length tbody' = (length tbody + length rows)%nat.
Proof.
  unfold App.tableSession. revert tbody.
  induction rows as [|r rows IH]; intros tbody; simpl.
  - intros [= <-]. lia.
  - destruct (App.renderRow sessKey timeframe r) as [e|t]; [discriminate|].
    intros H. apply IH in H. rewrite H, length_app. simpl. lia.
Qed.

Lemma tableSessions_length (timeframe : string) (table : list App.tr)
    (entries : list (string * list row)) (tbody : list App.tr) :
  foldM (App.tableSession timeframe) entries tbody = inr table ->
  length table = (length tbody + length (concat (map snd entries)))%nat.
Proof.
  revert tbody. induction entries as [|[k rows] es IH]; intros tbody; cbn [foldM].
  - intros [= <-]. simpl. lia.
  - destruct (App.tableSession timeframe tbody (k, rows)) as [e|tbody'] eqn:E;
      [discriminate|].
    intros H. apply IH in H. apply tableSession_length in E.
    simpl. rewrite length_app. lia.
Qed.

Lemma buildTable_totalRows (data : report) (timeframe : string) (table : list App.tr) :
  App.buildTable (Some data) timeframe = inr table ->
  App.totalRows (sessionEntries data) = Z.of_nat (length table).
Proof.
  unfold App.buildTable, App.payloadEntries, App.totalRows.
  rewrite totalRows_fold. intros H.
  apply (tableSessions_length timeframe) in H. simpl in H. lia.
Qed.

(** When [buildTable] returns, the table has one row per record of the
    payload, which is the row count of the status line. *)
Theorem buildTable_count (data : report) (timeframe : string) (table : list App.tr) :
  App.buildTable (Some data) timeframe = inr table ->
  Z.of_nat (length table) = App.totalRows (sessionEntries data).
Proof. intros H. symmetry. exact (buildTable_totalRows data timeframe table H). Qed.

Lemma buildTable_count_witness :
  exists table,
    App.buildTable (Some sampleReport) "1h" = inr table /\
    Z.of_nat (length table) = 3.
Proof.
  destruct (App.buildTable (Some sampleReport) "1h") as [e|table] eqn:E;
    [vm_compute in E; discriminate E|].
  exists table. split; [reflexivity|].
  exact (buildTable_count sampleReport "1h" table E).
Defined.

(** ** The summary of a session *)

Lemma stats_eq (a b : stats) :
  bull a = bull b -> bear a = bear b -> neutral a = neutral b ->
  strong a = strong b -> total a = total b -> a = b.
Proof. destruct a, b; simpl; congruence. Qed.

Lemma countBias_comm (s : stats) (t u : string) :
  countBias (countBias s t) u = countBias (countBias s u) t.
Proof.
  unfold countBias.
  destruct (String.eqb t ""), (includes t "bull"), (includes t "bear"),
           (includes t "strong"),
           (String.eqb u ""), (includes u "bull"), (includes u "bear"),
           (includes u "strong");
    apply stats_eq; simpl; lia.
Qed.

Lemma countRow_comm (k : string) (st : gmap string stats) (r r' : row) :
  countRow k (countRow k st r) r' = countRow k (countRow k st r') r.
Proof.
  unfold countRow. apply map_eq. intros i.
  destruct (decide (i = k)) as [->|Hne].
  - rewrite !lookup_alter_eq. destruct (st !! k) as [s|]; simpl; [|reflexivity].
    f_equal. apply countBias_comm.
  - rewrite !lookup_alter_ne by congruence. reflexivity.
Qed.

Lemma countRows_perm (k : string) (rows rows' : list row) (st : gmap string stats) :
  Permutation rows rows' ->
  fold_left (countRow k) rows st = fold_left (countRow k) rows' st.
Proof.
  intros HP. revert st.
  induction HP as [|r l l' _ IH|r r' l|l l' l'' _ IH1 _ IH2]; intros st; simpl.
  - reflexivity.
  - apply IH.
  - now rewrite countRow_comm.
  - now rewrite IH1.
Qed.

(** The summary does not depend on the order of the rows within a
    session: two payloads with the same sessions in the same order,
    whose rows are permuted inside each session, get the same
    counters. *)
Theorem collectStats_row_order (data data' : report) :
  sameSessionsUpToOrder (sessionEntries data) (sessionEntries data') ->
  collectStats data = collectStats data'.
Proof.
  unfold collectStats, sameSessionsUpToOrder.
  generalize (∅ : gmap string stats).
  generalize (sessionEntries data) (sessionEntries data').
  intros es es' st H. revert st.
  induction H as [|[k rows] [k' rows'] es es' [Hk HP] _ IH]; intros st; simpl.
  - reflexivity.
  - simpl in Hk, HP. subst k'. rewrite (countRows_perm k rows rows') by assumption.
    apply IH.
Qed.

Lemma collectStats_row_order_witness :
  collectStats
    {| date := VNull;
       sessions := Some [("asia", [[("bias", VStr "bull")]; [("bias", VStr "strong bear")]])] |}
  = collectStats
      {| date := VNull;
         sessions := Some [("asia", [[("bias", VStr "strong bear")]; [("bias", VStr "bull")]])] |}.
Proof.
  apply collectStats_row_order. constructor; [|constructor].
  split; [reflexivity|]. apply perm_swap.
Defined.

(** ** The pass of [nakshatra_rationale.js] *)

Ltac run_nakshatra :=
  unfold loadNakshatra, Pass.tryCatch, tryBody, mbind, pass_bind, Pass.bind,
    mret, pass_ret, Pass.ret, Pass.throw, Pass.lift, Pass.modify, doFetch.

Ltac run_report :=
  unfold App.loadReport, Pass.tryCatch, App.tryBody, mbind, pass_bind, Pass.bind,
    mret, pass_ret, Pass.ret, Pass.throw, Pass.lift, Pass.modify, App.doFetch.

(** Only [loadNakshatra] validates the date.  With an empty date it
    makes no request at all and ends in the error state with "Please
    select a valid date." and nothing rendered, whatever the server
    would answer; [loadReport] sends the request with the empty date
    in its path. *)
Theorem empty_date_handling (b : browser) (f : form) :
  dateInput f = ""%string ->
  (forall p : page,
     requests (loadNakshatra b f p) = requests p /\
     statusLabel (loadNakshatra b f p) = "[ERR] Please select a valid date." /\
     ("error" ∈ statusClass (loadNakshatra b f p)) /\
     nakBody (loadNakshatra b f p) = [] /\
     summaryRow (loadNakshatra b f p) = [] /\
     downloadCsv (loadNakshatra b f p) = downloadCsv p) /\
  (forall p : App.page,
     App.requests (App.loadReport b f p)
     = App.requests p ++ ["/api/reports/" +:+ App.query b f]).
Proof.
  intros Hd. split.
  - intros p. run_nakshatra. rewrite Hd. cbn [String.eqb].
    cbn [onError message setStatus logRequest resetUI setSummaryRow setNakBody
         statusLabel statusClass nakBody summaryRow downloadCsv requests].
    destruct (status_error_only (statusClass p)) as [He _].
    repeat split; assumption.
  - intros p. run_report. rewrite Hd.
    destruct (negb (ok _)); [reflexivity|].
    destruct (json _) as [m|data]; [reflexivity|].
    destruct (App.buildTable data (tfSelect f)); [reflexivity|].
    destruct (App.buildSummary data (tfSelect f)); [reflexivity|].
    destruct (App.payloadEntries data); reflexivity.
Qed.

Lemma empty_date_handling_witness :
  requests
    (loadNakshatra (browserWith (okWith (Some sampleReport)))
       {| dateInput := ""; sessionSelect := "all"; tfSelect := "1h"; clientTzInput := "" |}
       blankNakshatra)
  = [].
Proof.
  apply (proj1 (empty_date_handling (browserWith (okWith (Some sampleReport)))
                  {| dateInput := ""; sessionSelect := "all"; tfSelect := "1h";
                     clientTzInput := "" |} eq_refl) blankNakshatra).
Defined.

(** ** Both passes *)

(** A 2xx response whose body is not JSON: both passes end in the
    error state showing the parser's message, with nothing rendered
    and the download link untouched. *)
Theorem json_failure_reported (b : browser) (f : form) (m : string) :
  (forall p : page,
     dateInput f <> ""%string ->
     ok (fetch b (nakshatraUrl b f)) = true ->
     json (fetch b (nakshatraUrl b f)) = inl m ->
     statusLabel (loadNakshatra b f p) = "[ERR] " +:+ m /\
     ("error" ∈ statusClass (loadNakshatra b f p)) /\
     nakBody (loadNakshatra b f p) = [] /\
     summaryRow (loadNakshatra b f p) = [] /\
     downloadCsv (loadNakshatra b f p) = downloadCsv p) /\
  (forall p : App.page,
     ok (fetch b (reportUrl b f)) = true ->
     json (fetch b (reportUrl b f)) = inl m ->
     App.statusText (App.loadReport b f p) = "[ERR] " +:+ m /\
     failedUnrendered (App.loadReport b f p) /\
     App.downloadCsv (App.loadReport b f p) = App.downloadCsv p).
Proof.
  split.
  - intros p Hd Hok Hjson. unfold nakshatraUrl in *. run_nakshatra.
    destruct (String.eqb_spec (dateInput f) "") as [|_]; [contradiction|].
    rewrite Hok, Hjson.
    cbn [negb onError message setStatus logRequest resetUI setSummaryRow setNakBody
         statusLabel statusClass nakBody summaryRow downloadCsv requests].
    destruct (status_error_only (statusClass p)) as [He _].
    repeat split; assumption.
  - intros p Hok Hjson. unfold reportUrl, failedUnrendered in *. run_report.
    rewrite Hok, Hjson.
    cbn [negb App.onError message App.setStatus App.logRequest App.resetUI
         App.setSummaryRow App.setTableContainer App.statusText App.statusClass
         App.tableContainer App.summaryRow App.downloadCsv App.requests].
    destruct (status_error_only (App.statusClass p)) as [He _].
    repeat split; assumption.
Qed.

Lemma json_failure_reported_witness :
  statusLabel
    (loadNakshatra
       (browserWith {| status := 200; text := "<html>"; json := inl "Unexpected token <" |})
       sampleForm blankNakshatra)
  = "[ERR] Unexpected token <".
Proof.
  apply (proj1 (json_failure_reported
                  (browserWith {| status := 200; text := "<html>";
                                  json := inl "Unexpected token <" |})
                  sampleForm "Unexpected token <") blankNakshatra).
  - intros H. discriminate H.
  - reflexivity.
  - reflexivity.
Defined.

(** Whatever the server answers and whatever the page showed before,
    a pass leaves the status element in exactly one of the two states:
    "ok" without "error", or "error" without "ok". *)
Theorem status_in_one_state (b : browser) (f : form) :
  (forall p : page,
     ("ok" ∈ statusClass (loadNakshatra b f p) /\
      "error" ∉ statusClass (loadNakshatra b f p)) \/
     ("error" ∈ statusClass (loadNakshatra b f p) /\
      "ok" ∉ statusClass (loadNakshatra b f p))) /\
  (forall p : App.page,
     ("ok" ∈ App.statusClass (App.loadReport b f p) /\
      "error" ∉ App.statusClass (App.loadReport b f p)) \/
     ("error" ∈ App.statusClass (App.loadReport b f p) /\
      "ok" ∉ App.statusClass (App.loadReport b f p))).
Proof.
  split.
  - intros p. run_nakshatra.
    destruct (String.eqb (dateInput f) ""); [right; apply status_error_only|].
    destruct (ok (fetch b _)); cbn [negb]; [|right; apply status_error_only].
    destruct (json (fetch b _)) as [m|[[dt [ss|]]|]];
      [right; apply status_error_only | left; apply status_ok_only
      | right; apply status_error_only | right; apply status_error_only].
  - intros p. run_report.
    destruct (ok (fetch b _)); cbn [negb]; [|right; apply status_error_only].
    destruct (json (fetch b _)) as [m|data]; [right; apply status_error_only|].
    destruct (App.buildTable data (tfSelect f)); [right; apply status_error_only|].
    destruct (App.buildSummary data (tfSelect f)); [right; apply status_error_only|].
    destruct (App.payloadEntries data);
      [right; apply status_error_only | left; apply status_ok_only].
Qed.

(** Nothing of an earlier render survives a pass: the table, the
    summary row and the text of the status element after a pass are
    the same whatever the page showed before it. *)
Theorem render_from_scratch (b : browser) (f : form) :
  (forall p q : page,
     nakBody (loadNakshatra b f p) = nakBody (loadNakshatra b f q) /\
     summaryRow (loadNakshatra b f p) = summaryRow (loadNakshatra b f q) /\
     statusLabel (loadNakshatra b f p) = statusLabel (loadNakshatra b f q) /\
     statusGlyph (loadNakshatra b f p) = statusGlyph (loadNakshatra b f q)) /\
  (forall p q : App.page,
     App.tableContainer (App.loadReport b f p) = App.tableContainer (App.loadReport b f q) /\
     App.summaryRow (App.loadReport b f p) = App.summaryRow (App.loadReport b f q) /\
     App.statusText (App.loadReport b f p) = App.statusText (App.loadReport b f q)).
Proof.
  split.
  - intros p q. run_nakshatra.
    destruct (String.eqb (dateInput f) ""); [repeat split|].
    destruct (ok (fetch b _)); cbn [negb]; [|repeat split].
    destruct (json (fetch b _)) as [m|[[dt [ss|]]|]]; repeat split.
  - intros p q. run_report.
    destruct (ok (fetch b _)); cbn [negb]; [|repeat split].
    destruct (json (fetch b _)) as [m|data]; [repeat split|].
    destruct (App.buildTable data (tfSelect f)); [repeat split|].
    destruct (App.buildSummary data (tfSelect f)); [repeat split|].
    destruct (App.payloadEntries data); repeat split.
Qed.

(** ** One bad record in the report view *)

Lemma renderRow_error_kind (sessKey timeframe : string) (r : row) (e : exn) :
  App.renderRow sessKey timeframe r = inl e -> exists site, e = TypeError site.
Proof.
  unfold App.renderRow, App.callToLowerCase, App.callToUpperCase.
  destruct (orElse (orElse _ _) _); try (intros [= <-]; eauto);
    destruct (orElse (get r "trade_recommendation") _);
    try (intros [= <-]; eauto); discriminate.
Qed.

Lemma renderRow_bad_recommendation (sessKey timeframe : string) (r : row) :
  truthy (get r "trade_recommendation") = true ->
  (forall s, get r "trade_recommendation" <> VStr s) ->
  exists e, App.renderRow sessKey timeframe r = inl e.
Proof.
  intros Ht Hns. unfold App.renderRow.
  destruct (App.callToLowerCase _) as [e|biasText]; [eauto|].
  unfold orElse at 1. rewrite Ht. unfold App.callToUpperCase.
  destruct (get r "trade_recommendation") as [| | | |s]; eauto.
  now destruct (Hns s).
Qed.

Lemma tableSession_fails (timeframe sessKey : string) (rows : list row) (r : row) :
  r ∈ rows ->
  (exists e, App.renderRow sessKey timeframe r = inl e) ->
  forall tbody, exists site,
    App.tableSession timeframe tbody (sessKey, rows) = inl (TypeError site).
Proof.
  intros Hin [e He]. unfold App.tableSession.
  induction rows as [|r0 rows IH]; intros tbody; [now apply not_elem_of_nil in Hin|].
  cbn [foldM]. destruct (App.renderRow sessKey timeframe r0) as [e0|t] eqn:E0.
  - destruct (renderRow_error_kind _ _ _ _ E0) as [site ->]. eauto.
  - apply elem_of_cons in Hin as [->|Hin]; [congruence|]. now apply IH.
Qed.

Lemma tableSession_error_kind (timeframe sessKey : string) (rows : list row)
    (tbody : list App.tr) (e : exn) :
  App.tableSession timeframe tbody (sessKey, rows) = inl e ->
  exists site, e = TypeError site.
Proof.
  unfold App.tableSession. revert tbody.
  induction rows as [|r rows IH]; intros tbody; cbn [foldM]; [discriminate|].
  destruct (App.renderRow sessKey timeframe r) as [e0|t] eqn:E0.
  - intros [= <-]. now apply renderRow_error_kind in E0.
  - apply IH.
Qed.

Lemma buildTable_fails (timeframe : string) (entries : list (string * list row))
    (k : string) (rows : list row) (r : row) :
  (k, rows) ∈ entries -> r ∈ rows ->
  (forall sessKey, exists e, App.renderRow sessKey timeframe r = inl e) ->
  forall tbody, exists site,
    foldM (App.tableSession timeframe) entries tbody = inl (TypeError site).
Proof.
  intros Hin Hr Hbad.
  induction entries as [|[k0 rows0] es IH]; intros tbody;
    [now apply not_elem_of_nil in Hin|].
  cbn [foldM].
  destruct (App.tableSession timeframe tbody (k0, rows0)) as [e|tbody'] eqn:E.
  - destruct (tableSession_error_kind _ _ _ _ _ E) as [site ->]. eauto.
  - apply elem_of_cons in Hin as [[= <- <-]|Hin]; [|now apply IH].
    destruct (tableSession_fails timeframe k rows r Hr (Hbad k) tbody) as [site Hs].
    congruence.
Qed.

(** In the report view one record is enough to lose the whole render:
    when any row of any session holds under "trade_recommendation" a
    value that is truthy and not a string (a number, say), [buildTable]
    throws a [TypeError], and the pass ends in the error state showing
    the engine's message, with no table and no summary at all - the
    rows of the other sessions included. *)
Theorem bad_recommendation_aborts_report
    (b : browser) (f : form) (p : App.page) (d : report)
    (k : string) (rows : list row) (r : row) :
  ok (fetch b (reportUrl b f)) = true ->
  json (fetch b (reportUrl b f)) = inr (Some d) ->
  (k, rows) ∈ sessionEntries d -> r ∈ rows ->
  truthy (get r "trade_recommendation") = true ->
  (forall s, get r "trade_recommendation" <> VStr s) ->
  exists site,
    App.buildTable (Some d) (tfSelect f) = inl (TypeError site) /\
    App.statusText (App.loadReport b f p) = "[ERR] " +:+ typeErrorMessage b site /\
    failedUnrendered (App.loadReport b f p).
Proof.
  intros Hok Hjson Hin Hr Ht Hns.
  destruct (buildTable_fails (tfSelect f) (sessionEntries d) k rows r Hin Hr
              (fun sessKey => renderRow_bad_recommendation sessKey _ r Ht Hns) [])
    as [site Hsite].
  assert (Hbt : App.buildTable (Some d) (tfSelect f) = inl (TypeError site)) by exact Hsite.
  exists site. split; [exact Hbt|].
  unfold reportUrl, failedUnrendered in *. run_report.
  rewrite Hok, Hjson. cbn [negb]. rewrite Hbt.
  cbn [App.onError message App.setStatus App.logRequest App.resetUI
       App.setSummaryRow App.setTableContainer App.statusText App.statusClass
       App.tableContainer App.summaryRow].
  destruct (status_error_only (App.statusClass p)) as [He _].
  repeat split; assumption.
Qed.

Lemma bad_recommendation_aborts_report_witness :
  exists site,
    App.buildTable (Some numericRecommendation) "1h" = inl (TypeError site) /\
    App.statusText
      (App.loadReport (browserWith (okWith (Some numericRecommendation))) sampleForm
         blankReport)
    = "[ERR] " +:+ "cannot evaluate " +:+ site /\
    failedUnrendered
      (App.loadReport (browserWith (okWith (Some numericRecommendation))) sampleForm
         blankReport).
Proof.
  apply (bad_recommendation_aborts_report
           (browserWith (okWith (Some numericRecommendation))) sampleForm blankReport
           numericRecommendation "london"
           [[("trade_recommendation", VStr "SELL")]; [("trade_recommendation", VNum 1)]]
           [("trade_recommendation", VNum 1)]).
  - reflexivity.
  - reflexivity.
  - apply elem_of_cons. right. apply elem_of_cons. now left.
  - apply elem_of_cons. right. apply elem_of_cons. now left.
  - reflexivity.
  - intros s H. discriminate H.
Defined.

(** ** The pass of [app.js] when the table can be built *)

(** A 2xx response with a payload for which [buildTable] returns: the
    pass ends in the ok state; the container holds that one table,
    with one row per record, which is the count shown after "Rows" in
    the status text; the summary row holds the one container of
    [buildSummary], which returns as well; one request was made; and
    the download link is "/api/reports/<date>/csv" followed by the
    query string of that request. *)
Theorem loadReport_success
    (b : browser) (f : form) (p : App.page) (d : report) (table : list App.tr) :
  ok (fetch b (reportUrl b f)) = true ->
  json (fetch b (reportUrl b f)) = inr (Some d) ->
  App.buildTable (Some d) (tfSelect f) = inr table ->
  ("ok" ∈ App.statusClass (App.loadReport b f p)) /\
  ("error" ∉ App.statusClass (App.loadReport b f p)) /\
  App.tableContainer (App.loadReport b f p) = [table] /\
  (exists pills,
     App.buildSummary (Some d) (tfSelect f) = inr pills /\
     App.summaryRow (App.loadReport b f p) = [pills]) /\
  App.statusText (App.loadReport b f p)
  = "[OK] " +:+ toStr (date d) +:+ " | TF=" +:+ tfSelect f +:+ " | " +:+
    "UTC " +:+ utcNow b +:+ " | Client " +:+ clientNow b +:+ " | Rows " +:+
    Z_to_string (Z.of_nat (length table)) /\
  App.requests (App.loadReport b f p)
  = App.requests p ++ ["/api/reports/" +:+ dateInput f +:+ App.query b f] /\
  App.downloadCsv (App.loadReport b f p)
  = "/api/reports/" +:+ dateInput f +:+ "/csv" +:+ App.query b f.
Proof.
  intros Hok Hjson Hbt.
  destruct (buildTable_buildSummary _ _ _ Hbt) as (entries & pills & Hent & Hsum).
  assert (Hentries : entries = sessionEntries d) by (simpl in Hent; congruence).
  rewrite <- (buildTable_totalRows d (tfSelect f) table Hbt).
  unfold reportUrl in *. run_report.
  rewrite Hok, Hjson. cbn [negb]. rewrite Hbt, Hsum, Hent, Hentries.
  cbn [App.setStatus App.setDownloadCsv App.setSummaryRow App.setTableContainer
       App.logRequest App.resetUI App.statusClass App.statusText App.tableContainer
       App.summaryRow App.downloadCsv App.requests from_option].
  destruct (status_ok_only (App.statusClass p)) as [Ho He].
  repeat split; try assumption. now exists pills.
Qed.

Lemma loadReport_success_witness :
  App.statusText
    (App.loadReport (browserWith (okWith (Some sampleReport))) sampleForm blankReport)
  = "[OK] 2026-01-05 | TF=1h | UTC 2026-01-05T09:00:00.000Z | Client 1/5/2026, 9:00:00 AM | Rows 3".
Proof.
  destruct (App.buildTable (Some sampleReport) (tfSelect sampleForm)) as [e|table] eqn:E;
    [vm_compute in E; discriminate E|].
  assert (Hlen : length table = 3%nat).
  { vm_compute in E. injection E as <-. reflexivity. }
  pose proof (proj1 (proj2 (proj2 (proj2 (proj2
                (loadReport_success (browserWith (okWith (Some sampleReport))) sampleForm
                   blankReport sampleReport table eq_refl eq_refl E)))))) as H.
  rewrite Hlen in H. exact H.
Defined.

(** ** [pickField] on a record that inherits from [Object.prototype] *)

Lemma hasOwn_false_get (r : row) (key : string) :
  PlainObject.hasOwn r key = false -> get r key = VUndefined.
Proof.
  unfold PlainObject.hasOwn.
  induction r as [|[k v] r IH]; simpl; [reflexivity|].
  destruct (String.eqb k key); [discriminate | exact IH].
Qed.

Lemma prop_plain (r : row) (key : string) :
  plainKey r key -> PlainObject.prop r key = PlainObject.Data (get r key).
Proof.
  unfold plainKey, PlainObject.prop. intros [H|H].
  - now rewrite H.
  - destruct (PlainObject.hasOwn r key) eqn:E; [reflexivity|].
    now rewrite H, (hasOwn_false_get r key E).
Qed.

Lemma proto_pickExact_some (r : row) (exactKeys : list string) (x : PlainObject.pvalue) :
  PlainObject.pickExact r exactKeys = Some x ->
  exists key, In key exactKeys /\ PlainObject.prop r key = x /\
              PlainObject.nonEmpty x = true.
Proof.
  induction exactKeys as [|k ks IH]; simpl; [discriminate|].
  destruct (PlainObject.nonEmpty (PlainObject.prop r k)) eqn:Hk.
  - intros [= <-]. exists k. auto.
  - intros H. destruct (IH H) as (key & Hin & Hp & Hne). exists key. auto.
Qed.

Lemma proto_pickExact_skip (r : row) (pre rest : list string) :
  Forall (fun k => PlainObject.nonEmpty (PlainObject.prop r k) = false) pre ->
  PlainObject.pickExact r (pre ++ rest) = PlainObject.pickExact r rest.
Proof.
  induction 1 as [|k pre Hk _ IH]; simpl; [reflexivity|].
  now rewrite Hk.
Qed.

(** With inherited properties taken into account, what [pickField]
    returns is: the value of an entry of the record that is neither
    absent nor empty, stored under an exact key or under a key that
    matches a fuzzy part; or the fallback; or, when an exact key names
    a member of [Object.prototype] that the record does not own, that
    inherited built-in.  It never returns an empty value of the
    record. *)
Theorem pickField_result_origin
    (r : row) (exactKeys fuzzyParts : list string) (fallback : value) :
  match PlainObject.pickField r exactKeys fuzzyParts fallback with
  | PlainObject.Data v =>
      (exists key, In key exactKeys /\ In (key, v) r /\ nonEmpty v = true) \/
      (exists k, In (k, v) r /\ fuzzyHit fuzzyParts (k, v)) \/
      v = fallback
  | PlainObject.BuiltIn name =>
      In name exactKeys /\ name ∈ PlainObject.objectPrototypeMembers /\
      PlainObject.hasOwn r name = false
  end.
Proof.
  unfold PlainObject.pickField.
  destruct (PlainObject.pickExact r exactKeys) as [x|] eqn:E.
  - destruct (proto_pickExact_some _ _ _ E) as (key & Hin & Hp & Hne).
    unfold PlainObject.prop in Hp.
    destruct (PlainObject.hasOwn r key) eqn:Hown.
    + subst x. simpl in Hne. left. exists key. split; [assumption|].
      split; [now apply get_nonEmpty_In | assumption].
    + destruct (PlainObject.inherits key) eqn:Hinh; subst x.
      * split; [assumption|]. split; [|assumption].
        unfold PlainObject.inherits in Hinh. now apply bool_decide_eq_true in Hinh.
      * discriminate Hne.
  - cbv zeta.
    destruct (pickFuzzy (map toLowerCase fuzzyParts) r) as [v|] eqn:F.
    + right. left. now apply pickFuzzy_some.
    + right. right. reflexivity.
Qed.

Lemma proto_pickExact_plain (r : row) (exactKeys : list string) :
  Forall (plainKey r) exactKeys ->
  PlainObject.pickExact r exactKeys = PlainObject.Data <$> pickExact r exactKeys.
Proof.
  induction 1 as [|k ks Hk _ IH]; simpl; [reflexivity|].
  rewrite (prop_plain r k Hk). simpl.
  destruct (nonEmpty (get r k)); [reflexivity | exact IH].
Qed.

(** A record in which every value is absent or empty - the empty
    record among them - resolves to the fallback when each exact key
    is owned by the record or is not the name of a member of
    [Object.prototype].  An exact key that names such a member which
    the record does not own is never empty: when the exact keys before
    it hold nothing, [pickField] returns the inherited built-in,
    whatever the record, the fuzzy parts and the fallback are. *)
Theorem pickField_inherited_keys
    (r : row) (exactKeys fuzzyParts : list string) (fallback : value) :
  (Forall (fun e => nonEmpty (snd e) = false) r ->
   Forall (plainKey r) exactKeys ->
   PlainObject.pickField r exactKeys fuzzyParts fallback = PlainObject.Data fallback) /\
  (forall (pre post : list string) (key : string),
     exactKeys = pre ++ key :: post ->
     Forall (fun k => PlainObject.nonEmpty (PlainObject.prop r k) = false) pre ->
     PlainObject.hasOwn r key = false ->
     key ∈ PlainObject.objectPrototypeMembers ->
     PlainObject.pickField r exactKeys fuzzyParts fallback = PlainObject.BuiltIn key).
Proof.
  split.
  - intros Hr Hkeys. unfold PlainObject.pickField.
    rewrite proto_pickExact_plain by assumption.
    rewrite pickExact_none.
    + simpl. rewrite <- (app_nil_r r), pickFuzzy_skip; [reflexivity|].
      eapply Forall_impl; [exact Hr|].
      intros [k v] Hv [Hne _]. simpl in *. congruence.
    + apply List.Forall_forall. intros k _. now apply get_all_empty.
  - intros pre post key -> Hpre Hown Hmem. unfold PlainObject.pickField.
    rewrite proto_pickExact_skip by assumption. simpl.
    unfold PlainObject.prop. rewrite Hown.
    unfold PlainObject.inherits. rewrite bool_decide_eq_true_2 by assumption.
    reflexivity.
Qed.

Lemma pickField_inherited_keys_witness :
  PlainObject.pickField [("bias", VStr "")] ["nakshatra_bias"; "bias"] ["bias"] (VStr "fb")
  = PlainObject.Data (VStr "fb") /\
  PlainObject.pickField [] ["constructor"] [] (VStr "fb")
  = PlainObject.BuiltIn "constructor".
Proof.
  split.
  - apply (proj1 (pickField_inherited_keys [("bias", VStr "")]
                    ["nakshatra_bias"; "bias"] ["bias"] (VStr "fb"))).
    + repeat constructor.
    + constructor; [right; reflexivity|]. constructor; [left; reflexivity | constructor].
  - apply (proj2 (pickField_inherited_keys [] ["constructor"] [] (VStr "fb"))
             [] [] "constructor").
    + reflexivity.
    + constructor.
    + reflexivity.
    + apply elem_of_cons. now left.
Defined.

(** ** The summary row, session by session *)

Lemma own_absent (st : PlainObject.object) (k : string) :
  ~ In k (map fst st) -> PlainObject.own st k = None.
Proof.
  induction st as [|[k0 x] st IH]; simpl; [reflexivity|].
  intros H. destruct (String.eqb_spec k0 k) as [->|_].
  - exfalso. apply H. now left.
  - apply IH. intros Hin. apply H. now right.
Qed.

Lemma own_snoc (st : PlainObject.object) (k : string) (z : PlainObject.props) :
  PlainObject.own st k = None -> PlainObject.own (st ++ [(k, z)]) k = Some z.
Proof.
  induction st as [|[k0 x] st IH]; simpl.
  - now rewrite String.eqb_refl.
  - destruct (String.eqb k0 k); [discriminate | exact IH].
Qed.

Lemma update_snoc (f : PlainObject.props -> PlainObject.props)
    (st : PlainObject.object) (k : string) (z : PlainObject.props) :
  PlainObject.own st k = None ->
  PlainObject.update f k (st ++ [(k, z)]) = st ++ [(k, f z)].
Proof.
  induction st as [|[k0 x] st IH]; simpl.
  - now rewrite String.eqb_refl.
  - destruct (String.eqb k0 k); [discriminate|]. intros H. now rewrite IH.
Qed.

Lemma countRows_snoc (k : string) (rows : list row) (st : PlainObject.object)
    (z : PlainObject.props) (b : gmap string PlainObject.props) :
  PlainObject.own st k = None ->
  fold_left (PlainObject.countRow k) rows
    {| PlainObject.stats := st ++ [(k, z)]; PlainObject.builtIns := b |}
  = {| PlainObject.stats :=
         st ++ [(k, fold_left (fun o r => PlainObject.countBias o (biasOf r)) rows z)];
       PlainObject.builtIns := b |}.
Proof.
  intros Hown. revert z. induction rows as [|r rows IH]; intros z; [reflexivity|].
  cbn [fold_left]. rewrite <- IH. f_equal.
  unfold PlainObject.countRow, PlainObject.resolve. cbn [PlainObject.stats PlainObject.builtIns].
  now rewrite (own_snoc st k z Hown), (update_snoc _ st k z Hown).
Qed.

Lemma countRows_inherited (k : string) (rows : list row) (h : PlainObject.heap) :
  PlainObject.resolve h k = Some PlainObject.Inherited ->
  PlainObject.stats (fold_left (PlainObject.countRow k) rows h) = PlainObject.stats h.
Proof.
  revert h. induction rows as [|r rows IH]; intros h Hres; [reflexivity|].
  cbn [fold_left]. rewrite IH.
  - unfold PlainObject.countRow. now rewrite Hres.
  - unfold PlainObject.countRow. rewrite Hres.
    unfold PlainObject.resolve in *. exact Hres.
Qed.

Lemma ownSessions_cons_own (k : string) (rows : list row) (es : list (string * list row)) :
  PlainObject.inherits k = false ->
  ownSessions ((k, rows) :: es) = (k, rows) :: ownSessions es.
Proof. intros H. unfold ownSessions. now rewrite filter_cons_True. Qed.

Lemma ownSessions_cons_inherited (k : string) (rows : list row)
    (es : list (string * list row)) :
  PlainObject.inherits k = true ->
  ownSessions ((k, rows) :: es) = ownSessions es.
Proof.
  intros H. unfold ownSessions. rewrite filter_cons_False; [reflexivity|].
  simpl. congruence.
Qed.

Lemma countSessions_stats (es : list (string * list row)) (h : PlainObject.heap) :
  List.NoDup (map fst es) ->
  (forall k, In k (map fst es) -> ~ In k (map fst (PlainObject.stats h))) ->
  PlainObject.stats (fold_left PlainObject.countSession es h)
  = PlainObject.stats h ++ map (fun e => (fst e, counted (snd e))) (ownSessions es).
Proof.
  revert h. induction es as [|[k rows] es IH]; intros h Hnd Hfresh.
  - simpl. now rewrite app_nil_r.
  - inversion Hnd as [|? ? Hk Hnd']; subst.
    assert (Hown : PlainObject.own (PlainObject.stats h) k = None).
    { apply own_absent. apply Hfresh. now left. }
    cbn [fold_left]. unfold PlainObject.countSession at 2.
    unfold PlainObject.resolve at 1. rewrite Hown.
    destruct (PlainObject.inherits k) eqn:Hinh.
    + rewrite ownSessions_cons_inherited by assumption.
      rewrite IH; [|assumption|].
      * rewrite countRows_inherited; [reflexivity|].
        unfold PlainObject.resolve. now rewrite Hown, Hinh.
      * intros k' Hk'. rewrite countRows_inherited.
        -- apply Hfresh. now right.
        -- unfold PlainObject.resolve. now rewrite Hown, Hinh.
    + rewrite ownSessions_cons_own by assumption.
      destruct h as [st b]. cbn [PlainObject.stats PlainObject.builtIns] in *.
      rewrite countRows_snoc by assumption.
      rewrite IH; [|assumption|].
      * cbn [PlainObject.stats map fst snd]. fold (counted rows).
        now rewrite <- app_assoc.
      * intros k' Hk'. cbn [PlainObject.stats]. rewrite map_app, in_app_iff.
        intros [Hin|[<-|[]]].
        -- apply (Hfresh k'); [now right | assumption].
        -- contradiction.
Qed.

Lemma proto_countBias_total (o : PlainObject.props) (t : string) :
  PlainObject.total (PlainObject.countBias o t)
  = PlainObject.plusplus (PlainObject.total o).
Proof.
  unfold PlainObject.countBias.
  destruct (String.eqb t ""), (includes t "bull"), (includes t "bear"),
           (includes t "strong"); reflexivity.
Qed.

Lemma counted_total (rows : list row) :
  PlainObject.total (counted rows) = PlainObject.JNum (Z.of_nat (length rows)).
Proof.
  unfold counted.
  assert (Hgen : forall o n,
            PlainObject.total o = PlainObject.JNum n ->
            PlainObject.total
              (fold_left (fun o r => PlainObject.countBias o (biasOf r)) rows o)
            = PlainObject.JNum (n + Z.of_nat (length rows))).
  { induction rows as [|r rows IH]; intros o n Ho; cbn [fold_left length].
    - rewrite Ho. f_equal. lia.
    - rewrite (IH _ (n + 1)).
      + f_equal. lia.
      + now rewrite proto_countBias_total, Ho. }
  now rewrite (Hgen PlainObject.zero 0).
Qed.

(** The summary row of [nakshatra_rationale.js], the session keys
    being distinct as [Object.entries] gives them: [stats] gets an
    entry for every session whose key is not the name of a member of
    [Object.prototype], in the order of the payload, and no entry for
    the others; the row shows one pill per entry, labelled with the
    upper-cased key and carrying the counters of that session, whose
    total is its number of rows - zero for a session without rows -
    and the single "No rows" pill when there is no entry at all. *)
Theorem buildSummary_sessions (data : report) (timeframe : string) :
  List.NoDup (map fst (sessionEntries data)) ->
  PlainObject.stats (PlainObject.collectStats data)
  = map (fun e => (fst e, counted (snd e))) (ownSessions (sessionEntries data)) /\
  PlainObject.buildSummary data timeframe
  = match ownSessions (sessionEntries data) with
    | [] => [PillNoRows]
    | es => map (fun e => PillSession (toUpperCase (fst e)) timeframe (counted (snd e))) es
    end /\
  (forall rows : list row,
     PlainObject.total (counted rows) = PlainObject.JNum (Z.of_nat (length rows))).
Proof.
  intros Hnd.
  assert (Hst : PlainObject.stats (PlainObject.collectStats data)
                = map (fun e => (fst e, counted (snd e)))
                    (ownSessions (sessionEntries data))).
  { unfold PlainObject.collectStats. rewrite countSessions_stats; [reflexivity|assumption|].
    intros k _ []. }
  split; [exact Hst|]. split; [|exact counted_total].
  unfold PlainObject.buildSummary. rewrite Hst.
  destruct (ownSessions (sessionEntries data)) as [|e es]; [reflexivity|].
  cbn [map fst]. f_equal. rewrite List.map_map. reflexivity.
Qed.

Lemma buildSummary_sessions_witness :
  PlainObject.buildSummary sampleReport "1h"
  = [PillSession "ASIA" "1h"
       {| PlainObject.bull := PlainObject.JNum 1; PlainObject.bear := PlainObject.JNum 1;
          PlainObject.neutral := PlainObject.JNum 1;
          PlainObject.strong := PlainObject.JNum 1;
          PlainObject.total := PlainObject.JNum 3 |};
     PillSession "LONDON" "1h" PlainObject.zero].
Proof.
  refine (proj1 (proj2 (buildSummary_sessions sampleReport "1h" _))).
  repeat constructor; simpl; intuition discriminate.
Defined.

(** ** What the name column can show *)

(** In a record with no value under "nakshatra_name" or "nakshatra",
    the name cell shows the value of the first entry, in entry order,
    that is neither absent nor empty and whose lower-cased key
    contains "nak" or "star" (the placeholder when that value is
    falsy, as the number zero is): a bias stored under
    "nakshatra_bias", or a time stored under "start_time", is shown as
    the name. *)
Theorem nakshatra_name_first_fuzzy_hit
    (sessKey timeframe : string) (pre post : row) (k : string) (v : value) :
  nonEmpty (get (pre ++ (k, v) :: post) "nakshatra_name") = false ->
  nonEmpty (get (pre ++ (k, v) :: post) "nakshatra") = false ->
  Forall (fun e => ~ fuzzyHit ["nakshatra"; "nak"; "star"] e) pre ->
  nonEmpty v = true ->
  contains (toLowerCase k) "nak" \/ contains (toLowerCase k) "star" ->
  tdNakshatra (renderRow sessKey timeframe (pre ++ (k, v) :: post)) = orDash v.
Proof.
  intros H1 H2 Hpre Hv Hk. unfold renderRow. cbn [tdNakshatra]. f_equal.
  unfold pickField3, pickField.
  rewrite pickExact_none by (repeat constructor; assumption). cbv zeta.
  rewrite (pickFuzzy_skip ["nakshatra"; "nak"; "star"]) by assumption.
  rewrite pickFuzzy_hit; [reflexivity|].
  split; [assumption|]. destruct Hk as [Hk|Hk].
  - exists "nak"%string. split; [right; now left | exact Hk].
  - exists "star"%string. split; [right; right; now left | exact Hk].
Qed.

Lemma nakshatra_name_first_fuzzy_hit_witness :
  tdNakshatra
    (renderRow "asia" "1h"
       ([("time_utc", VStr "09:00")] ++ ("start_time", VStr "08:30")
          :: [("nakshatra_bias", VStr "Bullish")]))
  = "08:30".
Proof.
  apply (nakshatra_name_first_fuzzy_hit "asia" "1h" [("time_utc", VStr "09:00")]
           [("nakshatra_bias", VStr "Bullish")] "start_time" (VStr "08:30")).
  - reflexivity.
  - reflexivity.
  - constructor; [|constructor].
    intros [_ (p & Hp & Hc)]. apply includes_contains in Hc.
    destruct Hp as [<-|[<-|[<-|[]]]]; vm_compute in Hc; discriminate Hc.
  - reflexivity.
  - right. apply includes_contains. reflexivity.
Defined.

(** ** A table that cannot be built *)

(** [buildTable] fills a table that is not yet part of the page: when
    it throws, for whatever reason, [loadReport] ends in the error
    state showing the message of the exception, with no table and no
    summary on the page and the download link untouched. *)
Theorem buildTable_throw_renders_nothing
    (b : browser) (f : form) (p : App.page) (data : payload) (e : exn) :
  ok (fetch b (reportUrl b f)) = true ->
  json (fetch b (reportUrl b f)) = inr data ->
  App.buildTable data (tfSelect f) = inl e ->
  App.statusText (App.loadReport b f p) = "[ERR] " +:+ message b e /\
  failedUnrendered (App.loadReport b f p) /\
  App.downloadCsv (App.loadReport b f p) = App.downloadCsv p.
Proof.
  intros Hok Hjson Hbt. unfold reportUrl, failedUnrendered in *. run_report.
  rewrite Hok, Hjson. cbn [negb]. rewrite Hbt.
  cbn [App.onError App.setStatus App.logRequest App.resetUI
       App.setSummaryRow App.setTableContainer App.statusText App.statusClass
       App.tableContainer App.summaryRow App.downloadCsv].
  destruct (status_error_only (App.statusClass p)) as [He _].
  repeat split; assumption.
Qed.

Lemma buildTable_throw_renders_nothing_witness :
  App.statusText
    (App.loadReport (browserWith (okWith (Some numericRecommendation))) sampleForm
       blankReport)
  = "[ERR] cannot evaluate toUpperCase".
Proof.
  apply (buildTable_throw_renders_nothing
           (browserWith (okWith (Some numericRecommendation))) sampleForm
           blankReport (Some numericRecommendation) (TypeError "toUpperCase"));
    reflexivity.
Defined.
